(** * Modbus RTU master: frame codec, response validation and register decoding

    A shallow embedding of [modbus_rtu_lib.py] (class [Modbus]) and the
    properties of its request/validate/decode pipeline.

    Python values are modelled as follows: [int] is [Z]; [bytes] is
    [list Byte.byte]; [str] is [string]; a raised exception is the [Err]
    branch of [result], carrying the exception class and its message.
    Methods that touch the port or print run in a state-and-exception monad
    over a [World]: the port, the log of the calls made on it, and the lines
    printed.  The serial port is an abstract duplex byte stream (class
    [Transport]); since its calls are logged, "no transport I/O happened" is
    an observable fact.

    Outside the model: the constructor (opening the port, choosing the
    locale), the exceptions pySerial itself may raise, and default argument
    values (every argument is passed explicitly). *)

From Stdlib Require Import ZArith List Bool String Ascii Lia.
From Stdlib Require Import Strings.Byte.
From Stdlib Require Import HexadecimalString.
Import ListNotations.

Local Open Scope string_scope.
Local Open Scope list_scope.
Local Open Scope Z_scope.

(** ** Bytes and Python sequence operations *)

Definition bytes := list byte.

Definition Z_of_byte (b : byte) : Z := Z.of_N (Byte.to_N b).

Definition byte_of_Z (z : Z) : byte :=
  match Byte.of_N (Z.to_N (z mod 256)) with
  | Some b => b
  | None => x00
  end.

Definition byte_eqb (a b : byte) : bool := Z_of_byte a =? Z_of_byte b.

Fixpoint bytes_eqb (a b : bytes) : bool :=
  match a, b with
  | [], [] => true
  | x :: a', y :: b' => byte_eqb x y && bytes_eqb a' b'
  | _, _ => false
  end.

(** [len(s)] as a Python [int]. *)
Definition len {A} (s : list A) : Z := Z.of_nat (List.length s).

(** Python's clamping of a slice bound against a sequence of length [n]:
    a negative bound counts from the end, and every bound is clipped to
    [0..n]. *)
Definition slice_bound (n i : Z) : Z :=
  if i <? 0 then Z.max 0 (n + i) else Z.min i n.

(** [s[lo:hi]]; a missing bound is [None]. *)
Definition slice {A} (lo hi : option Z) (s : list A) : list A :=
  let n := len s in
  let a := match lo with Some i => slice_bound n i | None => 0 end in
  let b := match hi with Some j => slice_bound n j | None => n end in
  firstn (Z.to_nat (b - a)) (skipn (Z.to_nat a) s).

(** [int.from_bytes(b, 'big')]. *)
Definition int_from_bytes_big (b : bytes) : Z :=
  fold_left (fun acc x => acc * 256 + Z_of_byte x) b 0.

(** ** The CRC-16 engine *)

(** Modelled from the spec: the module [crc16] imported by the source is not
    part of the given sources.  Section 4.1 describes [crc16(data)] as the
    Modbus CRC-16: register initialised to 0xFFFF, each input byte XORed into
    it and followed by eight LSB-first steps with polynomial 0xA001, result
    returned as two bytes, low byte first. *)
Definition crc16_step (crc : Z) : Z :=
  if Z.testbit crc 0 then Z.lxor (Z.shiftr crc 1) 0xA001 else Z.shiftr crc 1.

Definition crc16_byte (crc : Z) (b : byte) : Z :=
  Nat.iter 8 crc16_step (Z.lxor crc (Z_of_byte b)).

Definition crc16 (data : bytes) : bytes :=
  let crc := fold_left crc16_byte data 0xFFFF in
  [byte_of_Z (Z.land crc 0xFF); byte_of_Z (Z.shiftr crc 8)].

(** ** Exceptions and messages *)

(** The exception classes the module raises: the built-in [ValueError] and
    [TimeoutError], the module's own [CrcError] and [FunctionError], and
    [struct.error] raised by [struct.pack]/[struct.unpack].  Each carries its
    message, except [struct_error] whose text belongs to the [struct]
    module.  [OverflowError] is what [bytes(n)] raises for an [n] that does
    not fit the interpreter's index type. *)
Inductive exn : Type :=
| ValueError (msg : string)
| TimeoutError (msg : string)
| CrcError (msg : string)
| FunctionError (msg : string)
| struct_error
| OverflowError (msg : string).

Inductive result (A : Type) : Type :=
| Ok (a : A)
| Err (e : exn).
Arguments Ok {A} a.
Arguments Err {A} e.

(** The bounds of the interpreter's index type ([Py_ssize_t], [sys.maxsize])
    on a 64-bit build. *)
Definition PY_SSIZE_T_MIN : Z := - 2 ^ 63.
Definition PY_SSIZE_T_MAX : Z := 2 ^ 63 - 1.

(** [bytes(n)] for an [int] argument: [n] zero bytes; [ValueError] when [n]
    is negative; [OverflowError] when [n] does not fit the index type (the
    conversion to an index comes first).  Running out of memory on a huge
    [n] is not modelled. *)
Definition bytes_of_int (n : Z) : result bytes :=
  if (n <? PY_SSIZE_T_MIN) || (PY_SSIZE_T_MAX <? n)
  then Err (OverflowError "cannot fit 'int' into an index-sized integer")
  else if n <? 0 then Err (ValueError "negative count")
  else Ok (repeat x00 (Z.to_nat n)).

Inductive Locale : Type := ru_RU | en_US.

Inductive msg_key : Type :=
| no_respond
| crc_is_not_correct
| invalid_function
| invalid_device_addr
| invalid_integer_format
| invalid_float_format.

(** [self.locale_table], indexed by a locale accepted by [__init__]. *)
Definition locale_table (l : Locale) (k : msg_key) : string :=
  match l, k with
  | ru_RU, no_respond => "Устройство не отвечает"
  | ru_RU, crc_is_not_correct => "CRC не совпал"
  | ru_RU, invalid_function => "Неверная функция"
  | ru_RU, invalid_device_addr =>
      "Адрес устройства находится вне диапазона (0-255)"
  | ru_RU, invalid_integer_format =>
      "Неверный формат целых чисел (не short, long или long long)"
  | ru_RU, invalid_float_format =>
      "Неверный формат чисел с плавающей точкой (не float или double)"
  | en_US, no_respond => "Device is not responding"
  | en_US, crc_is_not_correct => "CRC is not correct"
  | en_US, invalid_function => "Invalid function"
  | en_US, invalid_device_addr => "Device address is not in range (0-255)"
  | en_US, invalid_integer_format =>
      "Invalid integer format (is not short, long or long long)"
  | en_US, invalid_float_format =>
      "Invalid float format (is not float or double)"
  end.

(** The configuration held by a [Modbus] object.  [self.port] is the only
    mutable part of the object and lives in the threaded [World]. *)
Record Modbus : Type := {
  echo : bool;
  print_request : bool;
  print_response : bool;
  locale : Locale
}.

Definition message (self : Modbus) (k : msg_key) : string :=
  locale_table (locale self) k.

(** ** The environment: serial port and platform *)

(** The two operations of [serial.Serial] the client uses.  [port_read n]
    returns the bytes received (at most [n], fewer on timeout) and the port's
    next state. *)
Class Transport (P : Type) : Type := {
  port_write : bytes -> P -> P;
  port_read : Z -> P -> bytes * P
}.

(** [os.path.sep], used by the diagnostic hex dump. *)
Class Platform : Type := { os_path_sep : string }.

(** A call made on the port; a read is recorded with what it returned. *)
Inductive call : Type :=
| Write (data : bytes)
| Read (size : Z) (received : bytes).

Record World (P : Type) : Type := {
  port : P;
  calls : list call;
  stdout : list string
}.
Arguments port {P} w.
Arguments calls {P} w.
Arguments stdout {P} w.

(** ** A state-and-exception monad for the methods *)

Definition M (P A : Type) : Type := World P -> result A * World P.

Definition ret {P A} (a : A) : M P A := fun w => (Ok a, w).

Definition raise {P A} (e : exn) : M P A := fun w => (Err e, w).

Definition bind {P A B} (m : M P A) (k : A -> M P B) : M P B :=
  fun w =>
    match m w with
    | (Ok a, w') => k a w'
    | (Err e, w') => (Err e, w')
    end.

Definition lift {P A} (r : result A) : M P A := fun w => (r, w).

Notation "x <- m ;; k" := (bind m (fun x => k))
  (at level 61, m at next level, right associativity).
Notation "m ;; k" := (bind m (fun _ => k))
  (at level 61, right associativity).

(** ** Python helpers used by the methods *)

(** [hex(i)] for a non-negative [int]. *)
Definition hex (i : Z) : string :=
  ("0x" ++ HexadecimalString.NilZero.string_of_uint (N.to_hex_uint (Z.to_N i)))%string.

(** [s[n:]] on a [str], for [n >= 0]. *)
Fixpoint str_from (n : nat) (s : string) : string :=
  match n, s with
  | O, _ => s
  | S k, String _ t => str_from k t
  | S _, EmptyString => EmptyString
  end.

(** [sep.join(s)] where the iterable [s] is itself a [str]. *)
Fixpoint str_join (sep s : string) : string :=
  match s with
  | EmptyString => EmptyString
  | String c EmptyString => String c EmptyString
  | String c t => String c (sep ++ str_join sep t)%string
  end.

(** [s * n]: repetition of a [str]; empty when [n <= 0]. *)
Fixpoint str_mul_nat (s : string) (n : nat) : string :=
  match n with
  | O => EmptyString
  | S k => (s ++ str_mul_nat s k)%string
  end.

Definition str_mul (s : string) (n : Z) : string := str_mul_nat s (Z.to_nat n).

(** [c.upper()] on ASCII letters. *)
Definition ascii_upper (c : ascii) : ascii :=
  let n := nat_of_ascii c in
  if ((97 <=? n) && (n <=? 122))%nat then ascii_of_nat (n - 32) else c.

Fixpoint str_upper (s : string) : string :=
  match s with
  | EmptyString => EmptyString
  | String c t => String (ascii_upper c) (str_upper t)
  end.

Fixpoint bin_pos (p : positive) (acc : string) : string :=
  match p with
  | xH => String "1" acc
  | xO q => bin_pos q (String "0" acc)
  | xI q => bin_pos q (String "1" acc)
  end.

(** [bin(n)]. *)
Definition bin (n : Z) : string :=
  match n with
  | Z0 => "0b0"
  | Zpos p => ("0b" ++ bin_pos p EmptyString)%string
  | Zneg p => ("-0b" ++ bin_pos p EmptyString)%string
  end.

(** [int(c)] on a one-character [str] holding a decimal digit, the only
    characters [bin(...)[2:]] yields for a non-negative argument. *)
Definition int_of_char (c : ascii) : Z := Z.of_nat (nat_of_ascii c) - 48.

(** ** The [struct] module, for the formats the client builds *)

(** [struct.pack('>H', v)]. *)
Definition struct_pack_H (v : Z) : result bytes :=
  if (0 <=? v) && (v <=? 65535)
  then Ok [byte_of_Z (v / 256); byte_of_Z v]
  else Err struct_error.

(** The values [struct.unpack] yields.  A Python [float] is an IEEE-754
    binary64 datum, modelled by its 64-bit pattern: sign (bit 63), biased
    exponent (bits 62-52), fraction (bits 51-0). *)
Inductive pyval : Type :=
| PyInt (z : Z)
| PyFloat (bits : Z).

(** The conversion of a binary32 datum to binary64, on bit patterns, which
    code ['f'] goes through (the four bytes are read as a C [float] and
    returned as a [double]): zeros, subnormal and normal numbers and
    infinities keep their value, the subnormal ones becoming normal; a NaN
    keeps its sign and payload and comes back quiet. *)
Definition double_of_single (b : Z) : Z :=
  let sign := b / 2 ^ 31 in
  let e := (b / 2 ^ 23) mod 256 in
  let m := b mod 2 ^ 23 in
  sign * 2 ^ 63 +
  (if e =? 0 then
     if m =? 0 then 0
     else let h := Z.log2 m in
          (h + 874) * 2 ^ 52 + (m - 2 ^ h) * 2 ^ (52 - h)
   else if e =? 255 then
     2047 * 2 ^ 52 +
     (if m =? 0 then 0
      else if m <? 2 ^ 22 then 2 ^ 51 + m * 2 ^ 29 else m * 2 ^ 29)
   else (e + 896) * 2 ^ 52 + m * 2 ^ 29).

(** Standard (byte-order-prefixed) size of a format code. *)
Definition code_size (c : ascii) : option nat :=
  match c with
  | "h" | "H" => Some 2
  | "l" | "L" | "f" => Some 4
  | "q" | "Q" | "d" => Some 8
  | _ => None
  end%char%nat.

Definition unsigned_be (chunk : bytes) : Z := int_from_bytes_big chunk.

Definition signed_be (chunk : bytes) : Z :=
  let v := int_from_bytes_big chunk in
  let width := 8 * len chunk in
  if v <? 2 ^ (width - 1) then v else v - 2 ^ width.

(** The value of one chunk under its code (only called on the codes that
    [code_size] knows). *)
Definition unpack_code (c : ascii) (chunk : bytes) : pyval :=
  match c with
  | "h" | "l" | "q" => PyInt (signed_be chunk)
  | "H" | "L" | "Q" => PyInt (unsigned_be chunk)
  | "f" => PyFloat (double_of_single (unsigned_be chunk))
  | "d" => PyFloat (unsigned_be chunk)
  | _ => PyInt 0
  end%char.

(** Big-endian unpacking of a sequence of codes: the buffer must hold exactly
    the bytes the codes call for. *)
Fixpoint unpack_be (codes : list ascii) (buf : bytes) : option (list pyval) :=
  match codes with
  | [] => match buf with [] => Some [] | _ :: _ => None end
  | c :: cs =>
      match code_size c with
      | None => None
      | Some n =>
          if (List.length buf <? n)%nat then None
          else match unpack_be cs (skipn n buf) with
               | Some vs => Some (unpack_code c (firstn n buf) :: vs)
               | None => None
               end
      end
  end.

(** [struct.unpack(fmt, buf)] for the formats built by the client, which all
    start with the big-endian marker. *)
Definition struct_unpack (fmt : string) (buf : bytes) : result (list pyval) :=
  match fmt with
  | String ">"%char codes =>
      match unpack_be (list_ascii_of_string codes) buf with
      | Some vs => Ok vs
      | None => Err struct_error
      end
  | _ => Err struct_error
  end.

(** ** The client *)

Section Client.

Context {P : Type} {T : Transport P} {Pf : Platform}.

Definition serial_write (data : bytes) : M P unit :=
  fun w => (Ok tt, {| port := port_write data (port w);
                      calls := calls w ++ [Write data];
                      stdout := stdout w |}).

Definition serial_read (size : Z) : M P bytes :=
  fun w => let (received, p) := port_read size (port w) in
           (Ok received, {| port := p;
                            calls := calls w ++ [Read size received];
                            stdout := stdout w |}).

Definition print (line : string) : M P unit :=
  fun w => (Ok tt, {| port := port w;
                      calls := calls w;
                      stdout := stdout w ++ [line] |}).

(** *** Methods of [Modbus] *)

Definition _check_device_addr (self : Modbus) (device_addr : Z) : result unit :=
  if negb ((0 >=? device_addr) && (device_addr <=? 255))
  then Err (ValueError (message self invalid_device_addr))
  else Ok tt.

Definition _read_echo (self : Modbus) (request : bytes) : M P unit :=
  if echo self then serial_read (len request) ;; ret tt else ret tt.

Definition _check_response (self : Modbus) (response : bytes) : result unit :=
  if len response =? 0
  then Err (TimeoutError (message self no_respond))
  else Ok tt.

Definition _check_crc (self : Modbus) (response : bytes) : result unit :=
  let test_crc := crc16 (slice (Some 0) (Some (-2)) response) in
  if negb (bytes_eqb test_crc (slice (Some (-2)) None response))
  then Err (CrcError (message self crc_is_not_correct))
  else Ok tt.

Definition _check_command (self : Modbus) (command response : bytes) : result unit :=
  if negb (bytes_eqb (slice (Some 1) (Some 2) response) command)
  then Err (FunctionError (message self invalid_function))
  else Ok tt.

(** The loop shared by [_print_request] and [_print_response]. *)
Definition hex_dump (frame : bytes) : string :=
  fold_left
    (fun formatted i =>
       let h := str_from 1 (hex (Z_of_byte i)) in
       (formatted ++ os_path_sep ++
        (if (String.length h =? 3)%nat then h else str_join "0" h))%string)
    frame EmptyString.

Definition _print_request (self : Modbus) (request : bytes) : M P unit :=
  if print_request self then print (hex_dump request) else ret tt.

Definition _print_response (self : Modbus) (response : bytes) : M P unit :=
  if print_response self then print (hex_dump response) else ret tt.

Definition _return_bytes (self : Modbus) (command : bytes)
    (device_addr start_reg_addr regs_amount : Z) : M P bytes :=
  lift (_check_device_addr self device_addr) ;;
  byte_start_reg_addr <- lift (struct_pack_H start_reg_addr) ;;
  byte_regs_amount <- lift (struct_pack_H regs_amount) ;;
  addr_bytes <- lift (bytes_of_int device_addr) ;;
  let request_wo_crc :=
    addr_bytes ++ command ++ byte_start_reg_addr ++ byte_regs_amount in
  let crc := crc16 request_wo_crc in
  let request := request_wo_crc ++ crc in
  _print_request self request ;;
  serial_write request ;;
  _read_echo self request ;;
  response <- serial_read (regs_amount * 2 + 5) ;;
  _print_response self response ;;
  lift (_check_response self response) ;;
  lift (_check_crc self response) ;;
  lift (_check_command self command response) ;;
  ret (slice (Some 3) (Some (-2)) response).

(** The decoding shared, line for line, by [read_do_integers] and
    [read_di_integers]: [[int(i) for i in bin(int.from_bytes(b, 'big'))[2:]]]. *)
Definition bits_of_payload (byte_data : bytes) : list Z :=
  map int_of_char
      (list_ascii_of_string (str_from 2 (bin (int_from_bytes_big byte_data)))).

Definition read_do_integers (self : Modbus)
    (device_addr start_reg_addr ints_amount : Z) : M P (list Z) :=
  let command := [x01] in
  byte_data <- _return_bytes self command device_addr start_reg_addr ints_amount ;;
  let data := bits_of_payload byte_data in
  ret data.

Definition read_di_integers (self : Modbus)
    (device_addr start_reg_addr ints_amount : Z) : M P (list Z) :=
  let command := [x02] in
  byte_data <- _return_bytes self command device_addr start_reg_addr ints_amount ;;
  let data := bits_of_payload byte_data in
  ret data.

Definition read_ao_integers (self : Modbus)
    (device_addr start_reg_addr ints_amount : Z)
    (int_format : string) (is_signed : bool) : M P (list pyval) :=
  let command := [x03] in
  fmt <- (if (int_format =? "short")%string then ret ("h", ints_amount)
          else if (int_format =? "long")%string then ret ("l", ints_amount * 2)
          else if (int_format =? "long long")%string then ret ("q", ints_amount * 4)
          else raise (ValueError (message self invalid_integer_format))) ;;
  let int_format_char : string := fst fmt in
  let regs_amount : Z := snd fmt in
  (* [int_format_char.upper()] is evaluated and its value dropped: a [str]
     is immutable, so [int_format_char] keeps its lower-case code. *)
  let _ := if negb is_signed then Some (str_upper int_format_char) else None in
  byte_data <- _return_bytes self command device_addr start_reg_addr regs_amount ;;
  data <- lift (struct_unpack (">" ++ str_mul int_format_char ints_amount) byte_data) ;;
  ret data.

Definition read_ao_floats (self : Modbus)
    (device_addr start_reg_addr floats_amount : Z)
    (float_precision : string) : M P (list pyval) :=
  let command := [x03] in
  fmt <- (if (float_precision =? "float")%string then ret ("f", floats_amount * 2)
          else if (float_precision =? "double")%string then ret ("d", floats_amount * 4)
          else raise (ValueError (message self invalid_float_format))) ;;
  let float_format_char : string := fst fmt in
  let regs_amount : Z := snd fmt in
  byte_data <- _return_bytes self command device_addr start_reg_addr regs_amount ;;
  data <- lift (struct_unpack (">" ++ str_mul float_format_char floats_amount) byte_data) ;;
  ret data.

(** *** The stages of [_return_bytes] *)

(** The request built by [_return_bytes] (source lines 95-102), or the
    exception raised while building it. *)
Definition request_frame (self : Modbus) (command : bytes)
    (device_addr start_reg_addr regs_amount : Z) : result bytes :=
  match _check_device_addr self device_addr with
  | Err e => Err e
  | Ok _ =>
    match struct_pack_H start_reg_addr with
    | Err e => Err e
    | Ok byte_start_reg_addr =>
      match struct_pack_H regs_amount with
      | Err e => Err e
      | Ok byte_regs_amount =>
        match bytes_of_int device_addr with
        | Err e => Err e
        | Ok addr_bytes =>
            let request_wo_crc :=
              addr_bytes ++ command ++ byte_start_reg_addr ++ byte_regs_amount in
            Ok (request_wo_crc ++ crc16 request_wo_crc)
        end
      end
    end
  end.

(** The traffic of [_return_bytes] (source lines 103-108): the request is
    written, the echo drained when configured, the response read. *)
Definition exchange (self : Modbus) (request : bytes) (regs_amount : Z) : M P bytes :=
  _print_request self request ;;
  serial_write request ;;
  _read_echo self request ;;
  response <- serial_read (regs_amount * 2 + 5) ;;
  _print_response self response ;;
  ret response.

(** The validation of [_return_bytes] (source lines 109-113). *)
Definition validate (self : Modbus) (command response : bytes) : result bytes :=
  match _check_response self response with
  | Err e => Err e
  | Ok _ =>
    match _check_crc self response with
    | Err e => Err e
    | Ok _ =>
      match _check_command self command response with
      | Err e => Err e
      | Ok _ => Ok (slice (Some 3) (Some (-2)) response)
      end
    end
  end.

(** The fields of a request after the (absent) address: function code,
    start register and register count, big-endian. *)
Definition request_fields (command : bytes) (s r : Z) : bytes :=
  command ++ [byte_of_Z (s / 256); byte_of_Z s] ++ [byte_of_Z (r / 256); byte_of_Z r].

(** The transport calls of one exchange: the request is written, the echo
    is drained when echo mode is on, and [size] bytes are asked for. *)
Definition exchange_calls (self : Modbus) (request : bytes) (size : Z)
    (echoed response : bytes) : list call :=
  [Write request]
  ++ (if echo self then [Read (len request) echoed] else [])
  ++ [Read size response].

(** The request each read sends once address 0 has passed the check. *)
Definition request_of (command : bytes) (s r : Z) : bytes :=
  request_fields command s r ++ crc16 (request_fields command s r).

(** [one_exchange self request size w out]: the call that produced [out]
    from [w] made exactly one exchange on the port, asking for [size] bytes
    of response. *)
Definition one_exchange {A} (self : Modbus) (request : bytes) (size : Z)
    (w : World P) (out : result A * World P) : Prop :=
  exists echoed response,
    calls (snd out) = calls w ++ exchange_calls self request size echoed response.

(** The pipeline the two bit reads have in common, with the function code
    as its parameter. *)
Definition read_bits (command : bytes) (self : Modbus)
    (device_addr start_reg_addr ints_amount : Z) : M P (list Z) :=
  byte_data <- _return_bytes self command device_addr start_reg_addr ints_amount ;;
  ret (bits_of_payload byte_data).

End Client.

(** ** Payloads on the device side *)

(** A signed 32-bit value as a device lays it out in two registers: four
    bytes, most significant first, two's complement (the bytes of
    [struct.pack('>l', v)]). *)
Definition int32_be (v : Z) : bytes :=
  [byte_of_Z (v / 16777216); byte_of_Z (v / 65536); byte_of_Z (v / 256); byte_of_Z v].

Definition int32s_be (vs : list Z) : bytes := flat_map int32_be vs.

Definition INT32_MIN : Z := -2147483648.
Definition INT32_MAX : Z := 2147483647.

Definition is_int32 (v : Z) : Prop := INT32_MIN <= v <= INT32_MAX.

(** A well-formed response frame of device 0: address, function code, byte
    count, payload, CRC. *)
Definition response_frame (function : byte) (payload : bytes) : bytes :=
  let body := [x00; function; byte_of_Z (len payload)] ++ payload in
  body ++ crc16 body.

(** The value of a digit sequence, most significant digit first. *)
Definition value_of_bits (bits : list Z) : Z :=
  fold_left (fun acc b => 2 * acc + b) bits 0.

(** The binary digits of a positive number, most significant first. *)
Fixpoint pos_bits (p : positive) : list Z :=
  match p with
  | xH => [1]
  | xO q => pos_bits q ++ [0]
  | xI q => pos_bits q ++ [1]
  end.

(** [bits] is the binary expansion of [n]: digits 0/1, most significant
    first, worth [n], and without leading zeros (a lone 0 for zero). *)
Definition binary_expansion_of (n : Z) (bits : list Z) : Prop :=
  Forall (fun b => b = 0 \/ b = 1) bits /\
  value_of_bits bits = n /\
  (bits = [0] \/ hd 0 bits = 1).

(** ** A scripted port for running the client *)

(** A port whose receive buffer [rx] is filled in advance and which keeps
    what was written to it in [tx]. *)
Record Scripted : Type := { rx : bytes; tx : list bytes }.

#[export] Instance scripted_transport : Transport Scripted := {
  port_write data p := {| rx := rx p; tx := tx p ++ [data] |};
  port_read size p :=
    (firstn (Z.to_nat size) (rx p),
     {| rx := skipn (Z.to_nat size) (rx p); tx := tx p |})
}.

#[export] Instance posix : Platform := { os_path_sep := "/" }.

Definition client (e : bool) : Modbus :=
  {| echo := e; print_request := true; print_response := true; locale := en_US |}.

Definition fresh (received : bytes) : World Scripted :=
  {| port := {| rx := received; tx := [] |}; calls := []; stdout := [] |}.

(** A response whose function byte is not 3 and whose CRC bytes are wrong. *)
Definition garbled_response : bytes := [x00; x04; x02; xff; xff; x00; x00].

(** ** Views used by the further properties *)

(** An integer as [k] bytes, most significant first, two's complement: the
    bytes of [struct.pack] with a big-endian integer code of that size. *)
Fixpoint encode_be (k : nat) (v : Z) : bytes :=
  match k with
  | O => []
  | S k' => encode_be k' (v / 256) ++ [byte_of_Z v]
  end.

Definition ints_be (k : nat) (vs : list Z) : bytes := flat_map (encode_be k) vs.

(** Bytes per value for the integer formats and the float precisions. *)
Definition int_format_bytes (int_format : string) : option nat :=
  if (int_format =? "short")%string then Some 2%nat
  else if (int_format =? "long")%string then Some 4%nat
  else if (int_format =? "long long")%string then Some 8%nat
  else None.

Definition float_precision_bytes (float_precision : string) : option nat :=
  if (float_precision =? "float")%string then Some 4%nat
  else if (float_precision =? "double")%string then Some 8%nat
  else None.

(** The value of a finite binary64, and of a finite binary32, datum, read
    off its bit pattern and counted in units of 2^-1074 (the smallest
    positive binary64 number), which makes it an integer. *)
Definition double_scaled (b : Z) : Z :=
  let sign := b / 2 ^ 63 in
  let e := (b / 2 ^ 52) mod 2048 in
  let m := b mod 2 ^ 52 in
  (if sign =? 0 then 1 else -1) * (if e =? 0 then m else (2 ^ 52 + m) * 2 ^ (e - 1)).

Definition single_scaled (b : Z) : Z :=
  let sign := b / 2 ^ 31 in
  let e := (b / 2 ^ 23) mod 256 in
  let m := b mod 2 ^ 23 in
  (if sign =? 0 then 1 else -1) *
  (if e =? 0 then m * 2 ^ 925 else (2 ^ 23 + m) * 2 ^ (e + 924)).

(** The float a read returns for the bit pattern of one value in the
    payload: the pattern itself for ['double'], the widened one for
    ['float']. *)
Definition float_of_pattern (size : nat) (b : Z) : pyval :=
  if (size =? 4)%nat then PyFloat (double_of_single b) else PyFloat b.

(** A lower-case hexadecimal digit, and a byte written as [x] and its two
    digits. *)
Definition hex_digit (n : Z) : ascii :=
  nth (Z.to_nat n) (list_ascii_of_string "0123456789abcdef") "0"%char.

Definition hex_byte_text (b : byte) : string :=
  String "x" (String (hex_digit (Z_of_byte b / 16))
                (String (hex_digit (Z_of_byte b mod 16)) EmptyString)).

(** The same client with other settings. *)
Definition with_echo (self : Modbus) (e : bool) : Modbus :=
  {| echo := e; print_request := print_request self;
     print_response := print_response self; locale := locale self |}.

Definition with_printing (self : Modbus) (rq rs : bool) : Modbus :=
  {| echo := echo self; print_request := rq;
     print_response := rs; locale := locale self |}.

(** The same world with another receive buffer on its scripted port. *)
Definition with_rx (w : World Scripted) (received : bytes) : World Scripted :=
  {| port := {| rx := received; tx := tx (port w) |};
     calls := calls w; stdout := stdout w |}.

(** A frame as the diagnostic dump shows it: each byte as the separator,
    [x] and two hexadecimal digits. *)
Definition dump_text (sep : string) (frame : bytes) : string :=
  fold_right (fun b rest => (sep ++ hex_byte_text b ++ rest)%string) EmptyString frame.

(** What one exchange does to the port alone: the bytes the echo read and the
    response read return, and the port afterwards. *)
Definition exchange_port {P} {T : Transport P} (echo_mode : bool)
    (request : bytes) (regs_amount : Z) (p : P) : bytes * bytes * P :=
  let p1 := port_write request p in
  let '(echoed, p2) :=
    if echo_mode then port_read (len request) p1 else ([], p1) in
  let '(response, p3) := port_read (regs_amount * 2 + 5) p2 in
  (echoed, response, p3).

(** The register count a read of [n] values asks for, by selector, as the
    branches of [read_ao_integers] and [read_ao_floats] compute it. *)
Definition registers_for (selector : string) (n : Z) : Z :=
  if (selector =? "short")%string then n
  else if (selector =? "long")%string then n * 2
  else if (selector =? "float")%string then n * 2
  else n * 4.

(** The exceptions raised before and after the exchange with the device. *)
Definition raised_before_io (e : exn) : Prop :=
  match e with
  | ValueError _ | struct_error | OverflowError _ => True
  | _ => False
  end.

(** * Properties *)

Arguments crc16 : simpl never.
Arguments slice : simpl never.
Arguments hex_dump : simpl never.
Arguments struct_unpack : simpl never.

(** ** Bytes *)

Lemma Z_of_byte_range (b : byte) : 0 <= Z_of_byte b < 256.
Proof.
  unfold Z_of_byte. pose proof (Byte.to_N_bounded b). lia.
Qed.

Lemma Z_of_byte_inj (a b : byte) : Z_of_byte a = Z_of_byte b -> a = b.
Proof.
  unfold Z_of_byte. intros H. apply N2Z.inj in H.
  pose proof (Byte.of_to_N a) as Ha. pose proof (Byte.of_to_N b) as Hb.
  rewrite H in Ha. congruence.
Qed.

Lemma Z_of_byte_of_Z (z : Z) : Z_of_byte (byte_of_Z z) = z mod 256.
Proof.
  unfold Z_of_byte, byte_of_Z.
  assert (Hr : 0 <= z mod 256 < 256) by (apply Z.mod_pos_bound; lia).
  destruct (Byte.of_N (Z.to_N (z mod 256))) as [b|] eqn:E.
  - apply Byte.to_of_N in E. rewrite E. lia.
  - apply Byte.of_N_None_iff in E. lia.
Qed.

Lemma byte_eqb_eq (a b : byte) : byte_eqb a b = true <-> a = b.
Proof.
  unfold byte_eqb. rewrite Z.eqb_eq. split.
  - apply Z_of_byte_inj.
  - now intros ->.
Qed.

Lemma bytes_eqb_eq (a b : bytes) : bytes_eqb a b = true <-> a = b.
Proof.
  revert b. induction a as [|x a IH]; intros [|y b]; simpl; split; try easy.
  - rewrite andb_true_iff, byte_eqb_eq, IH. now intros [-> ->].
  - intros E. injection E as -> ->.
    rewrite andb_true_iff, byte_eqb_eq, IH. easy.
Qed.

Lemma bytes_eqb_neq (a b : bytes) : bytes_eqb a b = false <-> a <> b.
Proof.
  rewrite <- bytes_eqb_eq. destruct (bytes_eqb a b); split; congruence.
Qed.

(** ** [bytes(n)] *)

Lemma bytes_of_int_cases (n : Z) :
  (n < PY_SSIZE_T_MIN /\
   bytes_of_int n = Err (OverflowError "cannot fit 'int' into an index-sized integer")) \/
  (PY_SSIZE_T_MIN <= n < 0 /\ bytes_of_int n = Err (ValueError "negative count")) \/
  (0 <= n <= PY_SSIZE_T_MAX /\ bytes_of_int n = Ok (repeat x00 (Z.to_nat n))) \/
  (PY_SSIZE_T_MAX < n /\
   bytes_of_int n = Err (OverflowError "cannot fit 'int' into an index-sized integer")).
Proof.
  unfold bytes_of_int.
  assert (Hmin : PY_SSIZE_T_MIN = -9223372036854775808) by reflexivity.
  assert (Hmax : PY_SSIZE_T_MAX = 9223372036854775807) by reflexivity.
  destruct (Z.ltb_spec n PY_SSIZE_T_MIN); [left; split; [assumption|reflexivity]|].
  destruct (Z.ltb_spec PY_SSIZE_T_MAX n); cbn [orb].
  - right. right. right. split; [assumption|reflexivity].
  - destruct (Z.ltb_spec n 0).
    + right. left. split; [lia|reflexivity].
    + right. right. left. split; [lia|reflexivity].
Qed.

Lemma bytes_of_int_ok (n : Z) (b : bytes) : bytes_of_int n = Ok b -> 0 <= n.
Proof.
  destruct (bytes_of_int_cases n) as [[_ E]|[[_ E]|[[H E]|[_ E]]]];
    rewrite E; try discriminate. lia.
Qed.

(** ** Slices *)

Lemma len_nonneg {A} (s : list A) : 0 <= len s.
Proof. unfold len. lia. Qed.

Lemma len_app {A} (s t : list A) : len (s ++ t) = len s + len t.
Proof. unfold len. rewrite length_app. lia. Qed.

Lemma len_zero {A} (s : list A) : len s = 0 <-> s = [].
Proof.
  unfold len. destruct s; simpl; split; try easy; lia.
Qed.

Lemma slice_bound_neg (n i : Z) : i < 0 -> slice_bound n i = Z.max 0 (n + i).
Proof. unfold slice_bound. destruct (Z.ltb_spec i 0); lia. Qed.

Lemma slice_bound_pos (n i : Z) : 0 <= i -> slice_bound n i = Z.min i n.
Proof. unfold slice_bound. destruct (Z.ltb_spec i 0); lia. Qed.

Lemma firstn_len_app {A} (s t : list A) : firstn (Z.to_nat (len s)) (s ++ t) = s.
Proof.
  unfold len. rewrite Nat2Z.id.
  now rewrite firstn_app, firstn_all, Nat.sub_diag, app_nil_r.
Qed.

Lemma skipn_len_app {A} (s t : list A) : skipn (Z.to_nat (len s)) (s ++ t) = t.
Proof.
  unfold len. rewrite Nat2Z.id.
  now rewrite skipn_app, skipn_all, Nat.sub_diag.
Qed.

(** On a frame of header, payload and two trailing bytes the three slices of
    the validator select what their names say. *)
Lemma slice_body {A} (s : list A) (y z : A) :
  slice (Some 0) (Some (-2)) (s ++ [y; z]) = s.
Proof.
  unfold slice. rewrite len_app. pose proof (len_nonneg s).
  change (len [y; z]) with 2.
  rewrite (slice_bound_pos _ 0), (slice_bound_neg _ (-2)) by lia.
  replace (Z.min 0 (len s + 2)) with 0 by lia.
  replace (Z.max 0 (len s + 2 + -2) - 0) with (len s) by lia.
  apply firstn_len_app.
Qed.

Lemma slice_trailer {A} (s : list A) (y z : A) :
  slice (Some (-2)) None (s ++ [y; z]) = [y; z].
Proof.
  unfold slice. rewrite len_app. pose proof (len_nonneg s).
  change (len [y; z]) with 2.
  rewrite slice_bound_neg by lia.
  replace (Z.max 0 (len s + 2 + -2)) with (len s) by lia.
  replace (len s + 2 - len s) with 2 by lia.
  now rewrite skipn_len_app.
Qed.

Lemma slice_payload {A} (a f n : A) (s : list A) (y z : A) :
  slice (Some 3) (Some (-2)) (a :: f :: n :: s ++ [y; z]) = s.
Proof.
  unfold slice.
  change (a :: f :: n :: s ++ [y; z]) with ([a; f; n] ++ s ++ [y; z]).
  rewrite !len_app. pose proof (len_nonneg s).
  change (len [y; z]) with 2. change (len [a; f; n]) with 3.
  rewrite (slice_bound_pos _ 3), (slice_bound_neg _ (-2)) by lia.
  replace (Z.min 3 (3 + (len s + 2))) with 3 by lia.
  replace (Z.max 0 (3 + (len s + 2) + -2) - 3) with (len s) by lia.
  change (Z.to_nat 3) with 3%nat. simpl skipn.
  apply firstn_len_app.
Qed.

Lemma slice_function {A} (s : list A) :
  slice (Some 1) (Some 2) s =
  match nth_error s 1 with Some f => [f] | None => [] end.
Proof.
  destruct s as [|a [|f s]]; try reflexivity.
  unfold slice.
  assert (H : 2 <= len (a :: f :: s)).
  { unfold len. simpl List.length. lia. }
  rewrite !slice_bound_pos by lia.
  replace (Z.min 1 _) with 1 by lia. replace (Z.min 2 _) with 2 by lia.
  reflexivity.
Qed.

(** Every list of at least two elements ends in two elements. *)
Lemma split_trailer {A} (s : list A) :
  (2 <= List.length s)%nat -> exists b y z, s = b ++ [y; z].
Proof.
  intros H.
  destruct (exists_last (l := s)) as (s1 & z & ->).
  { intros ->. simpl in H. lia. }
  rewrite length_app in H. simpl in H.
  destruct (exists_last (l := s1)) as (s2 & y & ->).
  { intros ->. simpl in H. lia. }
  exists s2, y, z. now rewrite <- app_assoc.
Qed.

(** ** The stages of [_return_bytes] *)

Section Pipeline.

Context {P : Type} {T : Transport P} {Pf : Platform}.

Implicit Types (self : Modbus) (w : World P).

(** [_return_bytes] is its three stages in sequence: build the request,
    exchange it for a response, validate the response. *)
Lemma _return_bytes_stages self command d s r w :
  _return_bytes self command d s r w =
  match request_frame self command d s r with
  | Err e => (Err e, w)
  | Ok request =>
      match exchange self request r w with
      | (Ok response, w') => (validate self command response, w')
      | (Err e, w') => (Err e, w')
      end
  end.
Proof.
  unfold _return_bytes, request_frame, exchange, validate, bind, lift, ret, raise.
  destruct (_check_device_addr self d); [|reflexivity].
  destruct (struct_pack_H s); [|reflexivity].
  destruct (struct_pack_H r); [|reflexivity].
  destruct (bytes_of_int d); [|reflexivity].
  cbv zeta.
  destruct (_print_request self _ w) as [[[]|] w1]; [|reflexivity].
  destruct (serial_write _ w1) as [[[]|] w2]; [|reflexivity].
  destruct (_read_echo self _ w2) as [[[]|] w3]; [|reflexivity].
  destruct (serial_read _ w3) as [[response|] w4]; [|reflexivity].
  destruct (_print_response self response w4) as [[[]|] w5]; [|reflexivity].
  destruct (_check_response self response); [|reflexivity].
  destruct (_check_crc self response); [|reflexivity].
  destruct (_check_command self command response); reflexivity.
Qed.

(** An exchange never raises, and makes exactly the calls of
    [exchange_calls] on the port. *)
Lemma exchange_run self request r w :
  exists echoed response w',
    exchange self request r w = (Ok response, w') /\
    calls w' = calls w ++ exchange_calls self request (r * 2 + 5) echoed response.
Proof.
  unfold exchange, exchange_calls, _print_request, _print_response, _read_echo,
    bind, ret, print, serial_write, serial_read.
  destruct (print_request self), (echo self); cbn [port calls stdout];
    repeat match goal with
           | |- context [port_read ?n ?p] =>
               let rcv := fresh "rcv" in
               let q := fresh "q" in
               destruct (port_read n p) as [rcv q]; cbn [port calls stdout]
           end;
    destruct (print_response self); cbn [port calls stdout];
    eexists _, _, _; (split; [reflexivity|]); cbn [calls];
    rewrite <- ?app_assoc; reflexivity.
  Unshelve. all: exact [].
Qed.

(** The same run, with what the port returned and became spelled out. *)
Lemma exchange_explicit self request r w :
  exists w',
    exchange self request r w =
      (Ok (snd (fst (exchange_port (echo self) request r (port w)))), w') /\
    port w' = snd (exchange_port (echo self) request r (port w)) /\
    calls w' = calls w ++
      exchange_calls self request (r * 2 + 5)
        (fst (fst (exchange_port (echo self) request r (port w))))
        (snd (fst (exchange_port (echo self) request r (port w)))).
Proof.
  unfold exchange, exchange_port, exchange_calls, _print_request, _print_response,
    _read_echo, bind, ret, print, serial_write, serial_read.
  destruct (print_request self), (echo self); cbn [port calls stdout];
    repeat match goal with
           | |- context [port_read ?n ?p] =>
               let rcv := fresh "rcv" in
               let q := fresh "q" in
               destruct (port_read n p) as [rcv q]; cbn [port calls stdout fst snd]
           end;
    destruct (print_response self); cbn [port calls stdout fst snd];
    eexists; (split; [reflexivity|]); cbn [port calls];
    rewrite <- ?app_assoc; split; reflexivity.
Qed.

(** A request is built exactly for address 0 and 16-bit register fields,
    and then holds no address byte. *)
Lemma request_frame_ok self command d s r request :
  request_frame self command d s r = Ok request ->
  d = 0 /\ 0 <= s <= 65535 /\ 0 <= r <= 65535 /\
  request = request_of command s r.
Proof.
  unfold request_frame, _check_device_addr, struct_pack_H.
  destruct (Z.geb_spec 0 d); simpl; [|discriminate].
  destruct (Z.leb_spec d 255); simpl; [|discriminate].
  destruct (Z.leb_spec 0 s); simpl; [|discriminate].
  destruct (Z.leb_spec s 65535); simpl; [|discriminate].
  destruct (Z.leb_spec 0 r); simpl; [|discriminate].
  destruct (Z.leb_spec r 65535); simpl; [|discriminate].
  destruct (bytes_of_int d) as [addr_bytes|e] eqn:Hb; [|discriminate].
  apply bytes_of_int_ok in Hb as Hd.
  assert (d = 0) as -> by lia. injection Hb as <-. simpl.
  intros E. injection E as <-. repeat split; try lia.
Qed.

Lemma request_frame_zero self command s r :
  0 <= s <= 65535 -> 0 <= r <= 65535 ->
  request_frame self command 0 s r = Ok (request_of command s r).
Proof.
  intros Hs Hr. unfold request_frame, struct_pack_H. simpl.
  destruct (Z.leb_spec 0 s); [|lia]. destruct (Z.leb_spec s 65535); [|lia].
  destruct (Z.leb_spec 0 r); [|lia]. destruct (Z.leb_spec r 65535); [|lia].
  reflexivity.
Qed.

(** The exceptions raised while the request is built. *)
Lemma request_frame_error_kind self command d s r e :
  request_frame self command d s r = Err e -> raised_before_io e.
Proof.
  unfold request_frame, _check_device_addr, struct_pack_H.
  destruct (negb _); [intros [= <-]; exact I|].
  destruct (_ && _); [|intros [= <-]; exact I].
  destruct (_ && _); [|intros [= <-]; exact I].
  destruct (bytes_of_int_cases d) as [[_ E]|[[_ E]|[[_ E]|[_ E]]]]; rewrite E;
    try discriminate; intros [= <-]; exact I.
Qed.

(** When no request can be built the exception leaves the world untouched:
    nothing was printed, written or read. *)
Lemma _return_bytes_no_io self command d s r w e :
  request_frame self command d s r = Err e ->
  _return_bytes self command d s r w = (Err e, w).
Proof.
  intros E. now rewrite _return_bytes_stages, E.
Qed.

(** Otherwise the request goes through one exchange and the outcome is the
    validation of what the last read returned. *)
Lemma _return_bytes_io self command d s r w request :
  request_frame self command d s r = Ok request ->
  exists echoed response w',
    _return_bytes self command d s r w = (validate self command response, w') /\
    calls w' = calls w ++ exchange_calls self request (r * 2 + 5) echoed response.
Proof.
  intros E. rewrite _return_bytes_stages, E.
  destruct (exchange_run self request r w) as (echoed & response & w' & -> & Hc).
  now exists echoed, response, w'.
Qed.

Lemma exchange_calls_last self request size echoed response :
  exists evs,
    exchange_calls self request size echoed response =
    evs ++ [Read size response].
Proof.
  unfold exchange_calls.
  exists (Write request :: (if echo self then [Read (len request) echoed] else [])).
  reflexivity.
Qed.

(** Reading the outcome off the trace: if the call ended with a read on the
    port, that read asked for [r * 2 + 5] bytes and the outcome is the
    validation of the bytes it returned. *)
Lemma _return_bytes_received self command d s r w res w' evs n response :
  _return_bytes self command d s r w = (res, w') ->
  calls w' = calls w ++ evs ++ [Read n response] ->
  res = validate self command response /\ n = r * 2 + 5 /\ d = 0.
Proof.
  intros Hrun Hcalls.
  destruct (request_frame self command d s r) as [request|e] eqn:E.
  - destruct (_return_bytes_io self command d s r w request E)
      as (echoed & response' & w1 & Hrun' & Hc).
    rewrite Hrun in Hrun'. injection Hrun' as -> ->.
    destruct (exchange_calls_last self request (r * 2 + 5) echoed response') as (evs' & Hl).
    rewrite Hl, Hcalls in Hc. apply app_inv_head in Hc.
    apply app_inj_tail in Hc as [_ Hc]. injection Hc as -> ->.
    apply request_frame_ok in E. intuition.
  - rewrite (_return_bytes_no_io _ _ _ _ _ _ _ E) in Hrun.
    injection Hrun as <- <-.
    apply (f_equal (@List.length call)) in Hcalls.
    rewrite !length_app in Hcalls. simpl in Hcalls. lia.
Qed.

(** For address 0 and 16-bit fields the exchange takes place. *)
Lemma _return_bytes_one_exchange self command s r w :
  0 <= s <= 65535 -> 0 <= r <= 65535 ->
  one_exchange self (request_of command s r) (r * 2 + 5) w
    (_return_bytes self command 0 s r w).
Proof.
  intros Hs Hr.
  destruct (_return_bytes_io self command 0 s r w _ (request_frame_zero self command s r Hs Hr))
    as (echoed & response & w' & -> & Hc).
  now exists echoed, response.
Qed.

(** Whatever the arguments, [_return_bytes] either touches nothing or makes
    that one exchange. *)
Lemma _return_bytes_calls self command d s r w :
  snd (_return_bytes self command d s r w) = w \/
  one_exchange self (request_of command s r) (r * 2 + 5) w
    (_return_bytes self command d s r w).
Proof.
  destruct (request_frame self command d s r) as [request|e] eqn:E.
  - right. destruct (_return_bytes_io self command d s r w request E)
      as (echoed & response & w' & -> & Hc).
    apply request_frame_ok in E as (_ & _ & _ & ->).
    now exists echoed, response.
  - left. now rewrite (_return_bytes_no_io _ _ _ _ _ _ _ E).
Qed.

(** ** Validation *)

Lemma validate_empty self command :
  validate self command [] = Err (TimeoutError (message self no_respond)).
Proof. reflexivity. Qed.

(** Past the emptiness check of a non-empty response. *)
Ltac pass_check_response Hne :=
  unfold validate, _check_response;
  match goal with
  | |- context [len ?r =? 0] =>
      let E := fresh "E" in
      destruct (Z.eqb_spec (len r) 0) as [E|_];
      [apply len_zero in E; contradiction|]
  end.

Lemma validate_bad_crc self command response :
  response <> [] ->
  crc16 (slice (Some 0) (Some (-2)) response) <> slice (Some (-2)) None response ->
  validate self command response = Err (CrcError (message self crc_is_not_correct)).
Proof.
  intros Hne Hcrc. pass_check_response Hne. unfold _check_crc.
  apply bytes_eqb_neq in Hcrc. now rewrite Hcrc.
Qed.

Lemma validate_bad_function self command response :
  response <> [] ->
  crc16 (slice (Some 0) (Some (-2)) response) = slice (Some (-2)) None response ->
  slice (Some 1) (Some 2) response <> command ->
  validate self command response = Err (FunctionError (message self invalid_function)).
Proof.
  intros Hne Hcrc Hfn. pass_check_response Hne.
  unfold _check_crc, _check_command.
  apply bytes_eqb_eq in Hcrc. apply bytes_eqb_neq in Hfn.
  now rewrite Hcrc, Hfn.
Qed.

Lemma validate_good self command response :
  response <> [] ->
  crc16 (slice (Some 0) (Some (-2)) response) = slice (Some (-2)) None response ->
  slice (Some 1) (Some 2) response = command ->
  validate self command response = Ok (slice (Some 3) (Some (-2)) response).
Proof.
  intros Hne Hcrc Hfn. pass_check_response Hne.
  unfold _check_crc, _check_command.
  apply bytes_eqb_eq in Hcrc. apply bytes_eqb_eq in Hfn.
  now rewrite Hcrc, Hfn.
Qed.

Lemma function_byte_differs (response : bytes) (c : byte) :
  nth_error response 1 <> Some c -> slice (Some 1) (Some 2) response <> [c].
Proof.
  rewrite slice_function. destruct (nth_error response 1); congruence.
Qed.

Lemma function_byte_agrees (response : bytes) (c : byte) :
  nth_error response 1 = Some c -> slice (Some 1) (Some 2) response = [c].
Proof.
  rewrite slice_function. now intros ->.
Qed.

(** The frame a device builds around a payload (header, payload, CRC of
    both) passes validation, which gives the payload back. *)
Lemma validate_response_frame self (f : byte) (payload : bytes) :
  validate self [f] (response_frame f payload) = Ok payload.
Proof.
  unfold response_frame.
  set (body := [x00; f; byte_of_Z (len payload)] ++ payload).
  assert (Hcrc : exists y z, crc16 body = [y; z]) by (unfold crc16; eauto).
  destruct Hcrc as (y & z & Hcrc). rewrite Hcrc.
  rewrite validate_good.
  - subst body. cbn [app]. now rewrite slice_payload.
  - subst body. discriminate.
  - now rewrite slice_body, slice_trailer.
  - subst body. now apply function_byte_agrees.
Qed.

(** C3. Validation makes three checks in a fixed order, each with its own
    exception: an empty response raises [TimeoutError] (no response);
    otherwise, a CRC-16 of all bytes but the last two that differs from the
    last two bytes raises [CrcError], whatever the function byte is (so a
    response with a wrong CRC and a wrong function byte raises [CrcError],
    not [FunctionError]); otherwise, a byte at offset 1 that is not the
    request's function code raises [FunctionError].  This validation is the
    outcome of [_return_bytes] whenever it has read a response from the
    port. *)
Theorem response_checks_in_order self c response :
  (response = [] ->
   validate self [c] response = Err (TimeoutError (message self no_respond))) /\
  (response <> [] ->
   crc16 (slice (Some 0) (Some (-2)) response) <> slice (Some (-2)) None response ->
   validate self [c] response = Err (CrcError (message self crc_is_not_correct))) /\
  (response <> [] ->
   crc16 (slice (Some 0) (Some (-2)) response) = slice (Some (-2)) None response ->
   nth_error response 1 <> Some c ->
   validate self [c] response = Err (FunctionError (message self invalid_function))) /\
  (forall d s r w res w' evs n,
     _return_bytes self [c] d s r w = (res, w') ->
     calls w' = calls w ++ evs ++ [Read n response] ->
     res = validate self [c] response).
Proof.
  split; [|split; [|split]].
  - intros ->. apply validate_empty.
  - apply validate_bad_crc.
  - intros Hne Hcrc Hfn. apply validate_bad_function; auto using function_byte_differs.
  - intros d s r w res w' evs n Hrun Hcalls.
    now destruct (_return_bytes_received _ _ _ _ _ _ _ _ _ _ _ Hrun Hcalls) as (-> & _ & _).
Qed.

(** A response of at least five bytes whose byte at offset 1 is the
    function code and whose last two bytes are the CRC-16 of the bytes
    before them passes the three checks, which yield
    [response[3 : len(response)-2]]: the bytes between the three-byte header
    and the two CRC bytes, unchanged. *)
Lemma validate_well_formed self c response :
  5 <= len response ->
  nth_error response 1 = Some c ->
  slice (Some (len response - 2)) None response =
    crc16 (slice (Some 0) (Some (len response - 2)) response) ->
  validate self [c] response =
    Ok (slice (Some 3) (Some (len response - 2)) response) /\
  (exists header trailer,
     len header = 3 /\ len trailer = 2 /\
     response = header ++ slice (Some 3) (Some (len response - 2)) response ++ trailer).
Proof.
  intros Hlen Hfn Hcrc.
  destruct (split_trailer response) as (body & y & z & ->).
  { unfold len in Hlen. lia. }
  destruct body as [|a [|f [|k payload]]];
    try (unfold len in Hlen; simpl in Hlen; lia).
  set (frame := (a :: f :: k :: payload) ++ [y; z]) in *.
  assert (E2 : forall lo, slice lo (Some (len frame - 2)) frame =
                          slice lo (Some (-2)) frame).
  { intros lo. unfold slice.
    rewrite (slice_bound_pos _ (_ - 2)), (slice_bound_neg _ (-2)) by lia.
    do 2 f_equal. lia. }
  assert (E1 : slice (Some (len frame - 2)) None frame =
               slice (Some (-2)) None frame).
  { unfold slice.
    rewrite (slice_bound_pos _ (_ - 2)), (slice_bound_neg _ (-2)) by lia.
    do 2 f_equal; lia. }
  rewrite E1, E2 in Hcrc. rewrite !E2.
  split.
  - apply validate_good; auto using function_byte_agrees. discriminate.
  - subst frame.
    change ((a :: f :: k :: payload) ++ [y; z]) with (a :: f :: k :: payload ++ [y; z]).
    rewrite slice_payload. exists [a; f; k], [y; z]. repeat split.
Qed.

(** ** The address check and the request frame *)

Lemma _check_device_addr_accepts self d :
  _check_device_addr self d = Ok tt <-> d <= 0.
Proof.
  unfold _check_device_addr.
  destruct (Z.geb_spec 0 d), (Z.leb_spec d 255); simpl; split;
    intros; try discriminate; try reflexivity; lia.
Qed.

Lemma _check_device_addr_rejects self d :
  _check_device_addr self d = Err (ValueError (message self invalid_device_addr))
  <-> 0 < d.
Proof.
  unfold _check_device_addr.
  destruct (Z.geb_spec 0 d), (Z.leb_spec d 255); simpl; split;
    intros; try discriminate; try reflexivity; lia.
Qed.

(** C2. The address check of the code at work: it accepts exactly the
    addresses [d <= 0], so it rejects the in-range addresses 1 and 255 (and
    the read fails with the invalid-address [ValueError] before any I/O),
    while it lets -1 through (the read then fails, still before any I/O,
    with the [ValueError] of [bytes(-1)]). *)
Theorem address_check_accepts_nonpositive self w :
  (forall d, _check_device_addr self d = Ok tt <-> d <= 0) /\
  _check_device_addr self 1 = Err (ValueError (message self invalid_device_addr)) /\
  _check_device_addr self 255 = Err (ValueError (message self invalid_device_addr)) /\
  _check_device_addr self 256 = Err (ValueError (message self invalid_device_addr)) /\
  _check_device_addr self (-1) = Ok tt /\
  read_do_integers self 1 0 1 w =
    (Err (ValueError (message self invalid_device_addr)), w) /\
  read_do_integers self (-1) 0 1 w = (Err (ValueError "negative count"), w).
Proof.
  split; [apply _check_device_addr_accepts|].
  repeat split; reflexivity.
Qed.

(** C1. The request the code sends for address 0, function 3, start 0 and
    count 1 is the seven bytes 03 00 00 00 01 followed by their CRC-16: it
    begins with the function code, and no address byte is emitted.  For
    address 17 no request is sent at all. *)
Theorem request_has_no_address_byte self w :
  request_frame self [x03] 0 0 1 =
    Ok ([x03; x00; x00; x00; x01] ++ crc16 [x03; x00; x00; x00; x01]) /\
  one_exchange self ([x03; x00; x00; x00; x01] ++ crc16 [x03; x00; x00; x00; x01]) 7 w
    (_return_bytes self [x03] 0 0 1 w) /\
  len ([x03; x00; x00; x00; x01] ++ crc16 [x03; x00; x00; x00; x01]) = 7 /\
  _return_bytes self [x03] 17 0 1 w =
    (Err (ValueError (message self invalid_device_addr)), w).
Proof.
  split; [reflexivity|]. split; [|split].
  - apply (_return_bytes_one_exchange self [x03] 0 1 w); lia.
  - reflexivity.
  - apply _return_bytes_no_io. reflexivity.
Qed.

(** ** A valid response and the address *)

(** C6. Let the port answer the request for start [s] and count [r] with a
    response of at least five bytes whose byte at offset 1 is the function
    code and whose last two bytes are the CRC-16 of the bytes before them.
    Called with device address 0, [_return_bytes] makes the exchange and
    returns [response[3 : len(response)-2]], the bytes between the
    three-byte header and the two CRC bytes, unchanged.  Called with any
    device address from 1 to 255, it raises the invalid-address
    [ValueError] and leaves the world as it was: nothing is written, the
    response is never read, and no payload is returned. *)
Theorem valid_response_returned_only_for_address_0 self c s r w response :
  0 <= s <= 65535 -> 0 <= r <= 65535 ->
  5 <= len response ->
  nth_error response 1 = Some c ->
  slice (Some (len response - 2)) None response =
    crc16 (slice (Some 0) (Some (len response - 2)) response) ->
  snd (fst (exchange_port (echo self) (request_of [c] s r) r (port w))) = response ->
  (exists w',
     _return_bytes self [c] 0 s r w =
       (Ok (slice (Some 3) (Some (len response - 2)) response), w') /\
     calls w' = calls w ++
       exchange_calls self (request_of [c] s r) (r * 2 + 5)
         (fst (fst (exchange_port (echo self) (request_of [c] s r) r (port w))))
         response) /\
  (exists header trailer,
     len header = 3 /\ len trailer = 2 /\
     response = header ++ slice (Some 3) (Some (len response - 2)) response ++ trailer) /\
  (forall d, 1 <= d <= 255 ->
     _return_bytes self [c] d s r w =
       (Err (ValueError (message self invalid_device_addr)), w)).
Proof.
  intros Hs Hr Hlen Hfn Hcrc Hport.
  destruct (validate_well_formed self c response Hlen Hfn Hcrc) as [Hv Hsplit].
  split; [|split; [exact Hsplit|]].
  - rewrite _return_bytes_stages, (request_frame_zero self [c] s r Hs Hr).
    destruct (exchange_explicit self (request_of [c] s r) r w) as (w' & -> & _ & Hc).
    rewrite Hport in *. exists w'. now rewrite Hv.
  - intros d Hd. apply _return_bytes_no_io.
    unfold request_frame.
    now rewrite (proj2 (_check_device_addr_rejects self d)) by lia.
Qed.

(** ** Format selectors *)

(** C7. An integer format other than ['short'], ['long'] and ['long long'],
    and a float precision other than ['float'] and ['double'], make the read
    raise the invalid-format [ValueError] with the world as it was: nothing
    was written to or read from the port. *)
Theorem unknown_format_raises_before_io self d s amount w :
  (forall int_format is_signed,
     int_format <> "short" -> int_format <> "long" -> int_format <> "long long" ->
     read_ao_integers self d s amount int_format is_signed w =
     (Err (ValueError (message self invalid_integer_format)), w)) /\
  (forall float_precision,
     float_precision <> "float" -> float_precision <> "double" ->
     read_ao_floats self d s amount float_precision w =
     (Err (ValueError (message self invalid_float_format)), w)).
Proof.
  split.
  - intros int_format is_signed H1 H2 H3.
    apply String.eqb_neq in H1, H2, H3.
    unfold read_ao_integers, bind. now rewrite H1, H2, H3.
  - intros float_precision H1 H2.
    apply String.eqb_neq in H1, H2.
    unfold read_ao_floats, bind. now rewrite H1, H2.
Qed.

(** ** Expected response length *)

(** Decoding is pure: each read leaves the world as [_return_bytes] left it. *)
Lemma read_do_integers_world self d s n w :
  snd (read_do_integers self d s n w) = snd (_return_bytes self [x01] d s n w).
Proof.
  unfold read_do_integers, bind, ret.
  now destruct (_return_bytes self [x01] d s n w) as [[?|?] ?].
Qed.

Lemma read_di_integers_world self d s n w :
  snd (read_di_integers self d s n w) = snd (_return_bytes self [x02] d s n w).
Proof.
  unfold read_di_integers, bind, ret.
  now destruct (_return_bytes self [x02] d s n w) as [[?|?] ?].
Qed.

Lemma read_ao_integers_world self d s n int_format is_signed w regs :
  (int_format = "short" /\ regs = n) \/
  (int_format = "long" /\ regs = n * 2) \/
  (int_format = "long long" /\ regs = n * 4) ->
  snd (read_ao_integers self d s n int_format is_signed w) =
  snd (_return_bytes self [x03] d s regs w).
Proof.
  intros [[-> ->]|[[-> ->]|[-> ->]]];
    unfold read_ao_integers, bind, ret, lift; simpl;
    destruct (_return_bytes self [x03] d s _ w) as [[?|?] ?]; try reflexivity;
    match goal with
    | |- context [struct_unpack ?f ?b] => now destruct (struct_unpack f b)
    end.
Qed.

Lemma read_ao_floats_world self d s n float_precision w regs :
  (float_precision = "float" /\ regs = n * 2) \/
  (float_precision = "double" /\ regs = n * 4) ->
  snd (read_ao_floats self d s n float_precision w) =
  snd (_return_bytes self [x03] d s regs w).
Proof.
  intros [[-> ->]|[-> ->]];
    unfold read_ao_floats, bind, ret, lift; simpl;
    destruct (_return_bytes self [x03] d s _ w) as [[?|?] ?]; try reflexivity;
    match goal with
    | |- context [struct_unpack ?f ?b] => now destruct (struct_unpack f b)
    end.
Qed.

Lemma one_exchange_world {A B} self request size w
    (out : result A * World P) (out' : result B * World P) :
  snd out' = snd out ->
  one_exchange self request size w out -> one_exchange self request size w out'.
Proof.
  unfold one_exchange. now intros ->.
Qed.

(** C9. Once the address has passed the check (address 0) and the register
    fields fit 16 bits, every read makes one exchange on the port whose
    response read asks for exactly [regs_amount * 2 + 5] bytes, where
    [regs_amount] is the count itself for the two bit reads and for
    ['short'], twice the count for ['long'] and ['float'], and four times the
    count for ['long long'] and ['double']. *)
Theorem response_length_requested self start count w :
  0 <= start <= 65535 ->
  (0 <= count <= 65535 ->
   one_exchange self (request_of [x01] start count) (count * 2 + 5) w
     (read_do_integers self 0 start count w) /\
   one_exchange self (request_of [x02] start count) (count * 2 + 5) w
     (read_di_integers self 0 start count w) /\
   forall is_signed,
     one_exchange self (request_of [x03] start count) (count * 2 + 5) w
       (read_ao_integers self 0 start count "short" is_signed w)) /\
  (0 <= count * 2 <= 65535 ->
   (forall is_signed,
      one_exchange self (request_of [x03] start (count * 2)) (count * 2 * 2 + 5) w
        (read_ao_integers self 0 start count "long" is_signed w)) /\
   one_exchange self (request_of [x03] start (count * 2)) (count * 2 * 2 + 5) w
     (read_ao_floats self 0 start count "float" w)) /\
  (0 <= count * 4 <= 65535 ->
   (forall is_signed,
      one_exchange self (request_of [x03] start (count * 4)) (count * 4 * 2 + 5) w
        (read_ao_integers self 0 start count "long long" is_signed w)) /\
   one_exchange self (request_of [x03] start (count * 4)) (count * 4 * 2 + 5) w
     (read_ao_floats self 0 start count "double" w)).
Proof.
  intros Hs. repeat split; intros;
    eapply one_exchange_world;
    try (apply _return_bytes_one_exchange; eassumption).
  - apply read_do_integers_world.
  - apply read_di_integers_world.
  - apply read_ao_integers_world. auto.
  - apply read_ao_integers_world. auto.
  - apply read_ao_floats_world. auto.
  - apply read_ao_integers_world. auto.
  - apply read_ao_floats_world. auto.
Qed.

(** ** Integer decoding *)

Lemma list_ascii_of_str_mul (c : ascii) (n : Z) :
  list_ascii_of_string (str_mul (String c EmptyString) n) = repeat c (Z.to_nat n).
Proof.
  unfold str_mul. induction (Z.to_nat n) as [|k IH]; simpl; [reflexivity|].
  now rewrite IH.
Qed.

Lemma int_from_bytes_big_int32_be (v : Z) :
  int_from_bytes_big (int32_be v) = v mod 4294967296.
Proof.
  unfold int32_be, int_from_bytes_big. simpl fold_left.
  rewrite !Z_of_byte_of_Z.
  Z.to_euclidean_division_equations. lia.
Qed.

Lemma signed_be_int32_be (v : Z) : is_int32 v -> signed_be (int32_be v) = v.
Proof.
  unfold is_int32, INT32_MIN, INT32_MAX, signed_be. intros Hv.
  rewrite int_from_bytes_big_int32_be.
  change (len (int32_be v)) with 4.
  change (2 ^ (8 * 4 - 1)) with 2147483648.
  change (2 ^ (8 * 4)) with 4294967296.
  destruct (Z.ltb_spec (v mod 4294967296) 2147483648);
    Z.to_euclidean_division_equations; lia.
Qed.

Lemma unpack_be_int32s (vs : list Z) :
  Forall is_int32 vs ->
  unpack_be (repeat "l"%char (List.length vs)) (int32s_be vs) = Some (map PyInt vs).
Proof.
  induction 1 as [|v vs Hv _ IH]; [reflexivity|].
  cbn [List.length repeat int32s_be flat_map map].
  change (flat_map int32_be vs) with (int32s_be vs).
  cbn [unpack_be code_size]. unfold int32_be at 1 2 3.
  cbn [app List.length Nat.ltb Nat.leb skipn firstn].
  rewrite IH. cbn [unpack_code].
  change [byte_of_Z (v / 16777216); byte_of_Z (v / 65536); byte_of_Z (v / 256); byte_of_Z v]
    with (int32_be v).
  now rewrite signed_be_int32_be.
Qed.

(** C8. When the registers read hold the big-endian four-byte encodings of
    a list of signed 32-bit integers, reading them as ['long'] with
    [is_signed] set returns the list itself, in order. *)
Theorem long_decoding_round_trip self d s (vs : list Z) w w' :
  Forall is_int32 vs ->
  _return_bytes self [x03] d s (len vs * 2) w = (Ok (int32s_be vs), w') ->
  read_ao_integers self d s (len vs) "long" true w = (Ok (map PyInt vs), w').
Proof.
  intros Hvs Hrun.
  unfold read_ao_integers, bind, ret, lift. simpl.
  rewrite Hrun. unfold struct_unpack. simpl append.
  rewrite list_ascii_of_str_mul. unfold len. rewrite Nat2Z.id.
  now rewrite unpack_be_int32s.
Qed.

(** C4. The signedness selector has no effect on the decoding, which is
    always signed: with [is_signed] false, a register holding 0xFFFF is
    returned as -1. *)
Theorem unsigned_read_decodes_signed self d s n int_format w :
  read_ao_integers self d s n int_format false w =
  read_ao_integers self d s n int_format true w /\
  forall w',
    _return_bytes self [x03] d s 1 w = (Ok [xff; xff], w') ->
    read_ao_integers self d s 1 "short" false w = (Ok [PyInt (-1)], w').
Proof.
  split; [reflexivity|]. intros w' Hrun.
  unfold read_ao_integers, bind, ret, lift. simpl. now rewrite Hrun.
Qed.

(** ** Bit decoding *)

Lemma bin_pos_bits (p : positive) (acc : string) :
  map int_of_char (list_ascii_of_string (bin_pos p acc)) =
  pos_bits p ++ map int_of_char (list_ascii_of_string acc).
Proof.
  revert acc. induction p as [q IH|q IH|]; intros acc; simpl.
  - rewrite IH. simpl. now rewrite <- app_assoc.
  - rewrite IH. simpl. now rewrite <- app_assoc.
  - reflexivity.
Qed.

Lemma value_of_bits_app (bits : list Z) (b : Z) :
  value_of_bits (bits ++ [b]) = 2 * value_of_bits bits + b.
Proof.
  unfold value_of_bits. now rewrite fold_left_app.
Qed.

Lemma pos_bits_value (p : positive) : value_of_bits (pos_bits p) = Zpos p.
Proof.
  induction p as [q IH|q IH|]; simpl; rewrite ?value_of_bits_app, ?IH;
    try reflexivity; lia.
Qed.

Lemma pos_bits_binary (p : positive) : Forall (fun b => b = 0 \/ b = 1) (pos_bits p).
Proof.
  induction p as [q IH|q IH|]; simpl; try apply Forall_app; auto.
Qed.

Lemma pos_bits_head (p : positive) : hd 0 (pos_bits p) = 1.
Proof.
  induction p as [q IH|q IH|]; simpl; try reflexivity;
    destruct (pos_bits q); simpl in *; congruence.
Qed.

Lemma pos_bits_len (p : positive) : len (pos_bits p) = Z.log2 (Zpos p) + 1.
Proof.
  assert (H : forall q, len (pos_bits q) = Zpos (Pos.size q)).
  { induction q as [q IH|q IH|]; simpl; rewrite ?len_app, ?IH;
      try reflexivity; change (len [_]) with 1; lia. }
  rewrite H. destruct p; simpl; lia.
Qed.

Lemma len_cons {A} (x : A) (s : list A) : len (x :: s) = len s + 1.
Proof. unfold len. simpl List.length. lia. Qed.

Lemma int_from_bytes_big_acc (b : bytes) (acc : Z) :
  fold_left (fun a x => a * 256 + Z_of_byte x) b acc =
  acc * 256 ^ len b + int_from_bytes_big b.
Proof.
  unfold int_from_bytes_big. revert acc.
  induction b as [|x b IH]; intros acc; cbn [fold_left].
  - change (len []) with 0. lia.
  - rewrite IH, (IH (0 * 256 + Z_of_byte x)), len_cons.
    rewrite Z.pow_add_r by (pose proof (len_nonneg b); lia). lia.
Qed.

Lemma int_from_bytes_big_cons (x : byte) (b : bytes) :
  int_from_bytes_big (x :: b) = Z_of_byte x * 256 ^ len b + int_from_bytes_big b.
Proof.
  unfold int_from_bytes_big at 1. cbn [fold_left].
  now rewrite int_from_bytes_big_acc.
Qed.

Lemma int_from_bytes_big_range (b : bytes) :
  0 <= int_from_bytes_big b < 256 ^ len b.
Proof.
  induction b as [|x b IH].
  - change (len []) with 0. unfold int_from_bytes_big. simpl. lia.
  - rewrite int_from_bytes_big_cons, len_cons.
    rewrite Z.pow_add_r by (pose proof (len_nonneg b); lia).
    pose proof (Z_of_byte_range x).
    assert (0 < 256 ^ len b) by (apply Z.pow_pos_nonneg; [lia|apply len_nonneg]).
    nia.
Qed.

(** A leading zero bit in the first byte keeps the value below half the
    range of the payload. *)
Lemma int_from_bytes_big_high (high : byte) (rest : bytes) :
  Z_of_byte high < 128 ->
  int_from_bytes_big (high :: rest) < 2 ^ (8 * len (high :: rest) - 1).
Proof.
  intros Hh. rewrite int_from_bytes_big_cons, len_cons.
  pose proof (int_from_bytes_big_range rest) as Hr.
  pose proof (Z_of_byte_range high). pose proof (len_nonneg rest).
  replace (8 * (len rest + 1) - 1) with (7 + 8 * len rest) by lia.
  rewrite Z.pow_add_r by lia.
  replace (2 ^ (8 * len rest)) with (256 ^ len rest)
    by (change 256 with (2 ^ 8); rewrite <- Z.pow_mul_r by lia; reflexivity).
  change (2 ^ 7) with 128. nia.
Qed.

Lemma bits_of_payload_cases (payload : bytes) :
  bits_of_payload payload =
  match int_from_bytes_big payload with
  | Zpos p => pos_bits p
  | _ => [0]
  end.
Proof.
  unfold bits_of_payload, bin.
  pose proof (int_from_bytes_big_range payload) as Hr.
  destruct (int_from_bytes_big payload) as [|p|p]; try reflexivity; try lia.
  simpl str_from. rewrite bin_pos_bits. simpl. apply app_nil_r.
Qed.

Lemma bits_of_payload_expansion (payload : bytes) :
  binary_expansion_of (int_from_bytes_big payload) (bits_of_payload payload).
Proof.
  rewrite bits_of_payload_cases. pose proof (int_from_bytes_big_range payload) as Hr.
  unfold binary_expansion_of.
  destruct (int_from_bytes_big payload) as [|p|p]; try lia.
  - repeat split; auto.
  - repeat split; auto using pos_bits_binary, pos_bits_value, pos_bits_head.
Qed.

Lemma bits_of_payload_len (payload : bytes) :
  len (bits_of_payload payload) = Z.log2 (int_from_bytes_big payload) + 1.
Proof.
  rewrite bits_of_payload_cases. pose proof (int_from_bytes_big_range payload) as Hr.
  destruct (int_from_bytes_big payload) as [|p|p]; try lia.
  - reflexivity.
  - apply pos_bits_len.
Qed.

(** C5, amended. When validation hands over a payload, the coil read and the
    discrete-input read return the binary expansion of the payload read as a
    big-endian unsigned integer: digits 0/1, most significant first, no
    padding.  Its length is the bit length of that integer (1 for zero): it
    is fixed by the payload, not by the requested count, and whenever the
    first byte has a leading zero bit it is below the payload's
    [8 * len(payload)] bits. *)
Theorem bit_reads_return_binary_expansion self d s count w w' payload :
  (_return_bytes self [x01] d s count w = (Ok payload, w') ->
   read_do_integers self d s count w = (Ok (bits_of_payload payload), w')) /\
  (_return_bytes self [x02] d s count w = (Ok payload, w') ->
   read_di_integers self d s count w = (Ok (bits_of_payload payload), w')) /\
  binary_expansion_of (int_from_bytes_big payload) (bits_of_payload payload) /\
  len (bits_of_payload payload) = Z.log2 (int_from_bytes_big payload) + 1 /\
  (forall high rest,
     payload = high :: rest -> Z_of_byte high < 128 ->
     len (bits_of_payload payload) < 8 * len payload).
Proof.
  split; [|split; [|split; [|split]]].
  - intros Hrun. unfold read_do_integers, bind, ret. now rewrite Hrun.
  - intros Hrun. unfold read_di_integers, bind, ret. now rewrite Hrun.
  - apply bits_of_payload_expansion.
  - apply bits_of_payload_len.
  - intros high rest -> Hh. rewrite bits_of_payload_len.
    pose proof (int_from_bytes_big_high high rest Hh) as Hlt.
    pose proof (int_from_bytes_big_range (high :: rest)) as [Hge _].
    assert (Hl : 1 <= len (high :: rest)) by (unfold len; simpl List.length; lia).
    destruct (Z.eq_dec (int_from_bytes_big (high :: rest)) 0) as [E|E].
    + rewrite E. simpl Z.log2. lia.
    + apply Z.log2_lt_pow2 in Hlt; lia.
Qed.

(** ** Coils and discrete inputs *)

Lemma request_frame_error_any_command self c1 c2 d s r e :
  request_frame self c1 d s r = Err e -> request_frame self c2 d s r = Err e.
Proof.
  unfold request_frame.
  destruct (_check_device_addr self d); [|easy].
  destruct (struct_pack_H s); [|easy].
  destruct (struct_pack_H r); [|easy].
  destruct (bytes_of_int d); easy.
Qed.

Lemma validate_other_function self (c c' : byte) response payload :
  c <> c' ->
  validate self [c] response = Ok payload ->
  validate self [c'] response = Err (FunctionError (message self invalid_function)).
Proof.
  intros Hc. unfold validate.
  destruct (_check_response self response); [|discriminate].
  destruct (_check_crc self response); [|discriminate].
  unfold _check_command.
  destruct (bytes_eqb (slice (Some 1) (Some 2) response) [c]) eqn:E1; [|discriminate].
  apply bytes_eqb_eq in E1. intros _.
  destruct (bytes_eqb (slice (Some 1) (Some 2) response) [c']) eqn:E2; [|reflexivity].
  apply bytes_eqb_eq in E2. congruence.
Qed.

Lemma read_bits_no_io self c d s count w e :
  request_frame self [c] d s count = Err e ->
  read_bits [c] self d s count w = (Err e, w).
Proof.
  intros E. unfold read_bits, bind. now rewrite (_return_bytes_no_io _ _ _ _ _ _ _ E).
Qed.

Lemma read_bits_io self c d s count w request :
  request_frame self [c] d s count = Ok request ->
  exists echoed response,
    calls (snd (read_bits [c] self d s count w)) =
      calls w ++ exchange_calls self request (count * 2 + 5) echoed response /\
    fst (read_bits [c] self d s count w) =
      match validate self [c] response with
      | Ok payload => Ok (bits_of_payload payload)
      | Err e => Err e
      end.
Proof.
  intros E.
  destruct (_return_bytes_io self [c] d s count w request E)
    as (echoed & response & w' & Hrun & Hc).
  exists echoed, response. unfold read_bits, bind, ret. rewrite Hrun.
  destruct (validate self [c] response); now split.
Qed.

(** C10, amended. The coil read and the discrete-input read are one
    pipeline run with function code 1 and 2.  For the same arguments, from
    the same world, either both raise the same exception before any I/O,
    leaving the world as it was, or each makes one exchange: it writes a
    request in which the same bytes surround its function code, followed by
    the CRC-16 of its own bytes, asks for [count * 2 + 5] bytes, and returns
    what the checks of its own function code make of the response, decoded
    to bits.  When both receive the same response, a success of either read
    means [FunctionError] for the other; and when the two responses carry
    the same validated payload, both reads return the same bit sequence. *)
Theorem bit_reads_share_pipeline self d s count w :
  read_do_integers self d s count = read_bits [x01] self d s count /\
  read_di_integers self d s count = read_bits [x02] self d s count /\
  ((exists e,
      raised_before_io e /\
      read_do_integers self d s count w = (Err e, w) /\
      read_di_integers self d s count w = (Err e, w)) \/
   (exists address fields echoed1 response1 echoed2 response2,
      len fields = 4 /\
      calls (snd (read_do_integers self d s count w)) =
        calls w ++
        exchange_calls self
          ((address ++ [x01] ++ fields) ++ crc16 (address ++ [x01] ++ fields))
          (count * 2 + 5) echoed1 response1 /\
      calls (snd (read_di_integers self d s count w)) =
        calls w ++
        exchange_calls self
          ((address ++ [x02] ++ fields) ++ crc16 (address ++ [x02] ++ fields))
          (count * 2 + 5) echoed2 response2 /\
      fst (read_do_integers self d s count w) =
        match validate self [x01] response1 with
        | Ok payload => Ok (bits_of_payload payload)
        | Err e => Err e
        end /\
      fst (read_di_integers self d s count w) =
        match validate self [x02] response2 with
        | Ok payload => Ok (bits_of_payload payload)
        | Err e => Err e
        end /\
      (response1 = response2 ->
       (forall bits,
          fst (read_do_integers self d s count w) = Ok bits ->
          fst (read_di_integers self d s count w) =
            Err (FunctionError (message self invalid_function))) /\
       (forall bits,
          fst (read_di_integers self d s count w) = Ok bits ->
          fst (read_do_integers self d s count w) =
            Err (FunctionError (message self invalid_function)))) /\
      (forall payload,
         validate self [x01] response1 = Ok payload ->
         validate self [x02] response2 = Ok payload ->
         fst (read_do_integers self d s count w) = Ok (bits_of_payload payload) /\
         fst (read_di_integers self d s count w) = Ok (bits_of_payload payload)))) /\
  (forall response payload,
     validate self [x01] response = Ok payload ->
     validate self [x02] response = Err (FunctionError (message self invalid_function))) /\
  (forall response payload,
     validate self [x02] response = Ok payload ->
     validate self [x01] response = Err (FunctionError (message self invalid_function))).
Proof.
  assert (Hdo : read_do_integers self d s count = read_bits [x01] self d s count)
    by reflexivity.
  assert (Hdi : read_di_integers self d s count = read_bits [x02] self d s count)
    by reflexivity.
  assert (H12 : forall response payload,
             validate self [x01] response = Ok payload ->
             validate self [x02] response =
               Err (FunctionError (message self invalid_function))).
  { intros response payload. apply validate_other_function. discriminate. }
  assert (H21 : forall response payload,
             validate self [x02] response = Ok payload ->
             validate self [x01] response =
               Err (FunctionError (message self invalid_function))).
  { intros response payload. apply validate_other_function. discriminate. }
  split; [exact Hdo|]. split; [exact Hdi|]. split; [|split; [exact H12|exact H21]].
  rewrite Hdo, Hdi.
  destruct (request_frame self [x01] d s count) as [request1|e] eqn:E1.
  - right.
    destruct (request_frame self [x02] d s count) as [request2|e] eqn:E2.
    2:{ apply (request_frame_error_any_command self [x02] [x01]) in E2. congruence. }
    destruct (read_bits_io self x01 d s count w request1 E1)
      as (echoed1 & response1 & Hc1 & Hr1).
    destruct (read_bits_io self x02 d s count w request2 E2)
      as (echoed2 & response2 & Hc2 & Hr2).
    apply request_frame_ok in E1 as (_ & _ & _ & ->).
    apply request_frame_ok in E2 as (_ & _ & _ & ->).
    exists [], ([byte_of_Z (s / 256); byte_of_Z s] ++
                [byte_of_Z (count / 256); byte_of_Z count]),
      echoed1, response1, echoed2, response2.
    split; [reflexivity|]. split; [exact Hc1|]. split; [exact Hc2|].
    split; [exact Hr1|]. split; [exact Hr2|]. split.
    + intros <-. rewrite Hr1, Hr2. split; intros bits.
      * destruct (validate self [x01] response1) as [payload|] eqn:V; [|discriminate].
        intros _. now rewrite (H12 _ _ V).
      * destruct (validate self [x02] response1) as [payload|] eqn:V; [|discriminate].
        intros _. now rewrite (H21 _ _ V).
    + intros payload V1 V2. rewrite Hr1, Hr2, V1, V2. now split.
  - left. exists e. split; [exact (request_frame_error_kind _ _ _ _ _ _ E1)|].
    split; [exact (read_bits_no_io _ _ _ _ _ _ _ E1)|].
    apply read_bits_no_io.
    exact (request_frame_error_any_command self [x01] [x02] _ _ _ _ E1).
Qed.

End Pipeline.

(** * Runs on the scripted port *)

(** ** Validation order and payload extraction *)

Lemma response_checks_in_order_witness :
  nth_error garbled_response 1 <> Some x03 /\
  crc16 (slice (Some 0) (Some (-2)) garbled_response)
    <> slice (Some (-2)) None garbled_response /\
  fst (_return_bytes (client false) [x03] 0 0 1 (fresh garbled_response)) =
    Err (CrcError "CRC is not correct").
Proof.
  assert (Hcrc : crc16 (slice (Some 0) (Some (-2)) garbled_response)
                 <> slice (Some (-2)) None garbled_response)
    by (vm_compute; discriminate).
  split; [vm_compute; discriminate|]. split; [exact Hcrc|].
  destruct (@response_checks_in_order Scripted _ _ (client false) x03 garbled_response)
    as (_ & Hbad & _ & Hrun).
  rewrite (Hrun 0 0 1 (fresh garbled_response) _ _
             [Write (request_of [x03] 0 1)] 7 (surjective_pairing _)).
  - apply Hbad; [discriminate|exact Hcrc].
  - vm_compute. reflexivity.
Defined.

Lemma valid_response_returned_only_for_address_0_witness :
  fst (_return_bytes (client false) [x03] 0 0 1
         (fresh ([x01; x03; x02; x12; x34] ++ crc16 [x01; x03; x02; x12; x34]))) =
    Ok [x12; x34] /\
  _return_bytes (client false) [x03] 1 0 1
    (fresh ([x01; x03; x02; x12; x34] ++ crc16 [x01; x03; x02; x12; x34])) =
    (Err (ValueError "Device address is not in range (0-255)"),
     fresh ([x01; x03; x02; x12; x34] ++ crc16 [x01; x03; x02; x12; x34])).
Proof.
  destruct (@valid_response_returned_only_for_address_0 Scripted _ _ (client false)
              x03 0 1
              (fresh ([x01; x03; x02; x12; x34] ++ crc16 [x01; x03; x02; x12; x34]))
              ([x01; x03; x02; x12; x34] ++ crc16 [x01; x03; x02; x12; x34]))
    as ((w' & Hrun & _) & _ & Hbad).
  - lia.
  - lia.
  - vm_compute. discriminate.
  - vm_compute. reflexivity.
  - vm_compute. reflexivity.
  - vm_compute. reflexivity.
  - split.
    + rewrite Hrun. vm_compute. reflexivity.
    + apply Hbad. lia.
Defined.

(** ** Format selectors and response length *)

Lemma unknown_format_raises_before_io_witness :
  read_ao_integers (client false) 0 0 1 "byte" false (fresh []) =
    (Err (ValueError "Invalid integer format (is not short, long or long long)"),
     fresh []) /\
  read_ao_floats (client false) 0 0 1 "half" (fresh []) =
    (Err (ValueError "Invalid float format (is not float or double)"), fresh []).
Proof.
  destruct (unknown_format_raises_before_io (client false) 0 0 1 (fresh []))
    as [Hint Hfloat].
  split.
  - apply Hint; discriminate.
  - apply Hfloat; discriminate.
Defined.

Lemma response_length_requested_witness :
  one_exchange (client true) (request_of [x01] 0 3) 11 (fresh [])
    (read_do_integers (client true) 0 0 3 (fresh [])) /\
  one_exchange (client true) (request_of [x03] 0 6) 17 (fresh [])
    (read_ao_integers (client true) 0 0 3 "long" true (fresh [])) /\
  one_exchange (client true) (request_of [x03] 0 12) 29 (fresh [])
    (read_ao_floats (client true) 0 0 3 "double" (fresh [])).
Proof.
  destruct (response_length_requested (client true) 0 3 (fresh []))
    as (H16 & H32 & H64); [lia|].
  destruct H16 as (Hdo & _); [lia|].
  destruct H32 as (Hlong & _); [lia|].
  destruct H64 as (_ & Hdouble); [lia|].
  split; [exact Hdo|]. split; [exact (Hlong true)|exact Hdouble].
Defined.

(** ** Decoding *)

Lemma long_decoding_round_trip_witness :
  Forall is_int32 [0; INT32_MIN; INT32_MAX] /\
  fst (read_ao_integers (client false) 0 0 3 "long" true
         (fresh (response_frame x03 (int32s_be [0; INT32_MIN; INT32_MAX])))) =
    Ok [PyInt 0; PyInt INT32_MIN; PyInt INT32_MAX].
Proof.
  assert (H : Forall is_int32 [0; INT32_MIN; INT32_MAX])
    by (repeat constructor; unfold INT32_MIN, INT32_MAX; lia).
  split; [exact H|].
  rewrite (long_decoding_round_trip (client false) 0 0 [0; INT32_MIN; INT32_MAX]
             (fresh (response_frame x03 (int32s_be [0; INT32_MIN; INT32_MAX])))
             (snd (_return_bytes (client false) [x03] 0 0 6
                     (fresh (response_frame x03 (int32s_be [0; INT32_MIN; INT32_MAX])))))
             H).
  - reflexivity.
  - vm_compute. reflexivity.
Defined.

Lemma unsigned_read_decodes_signed_witness :
  fst (read_ao_integers (client false) 0 0 1 "short" false
         (fresh (response_frame x03 [xff; xff]))) = Ok [PyInt (-1)].
Proof.
  destruct (unsigned_read_decodes_signed (client false) 0 0 1 "short"
              (fresh (response_frame x03 [xff; xff]))) as [_ H].
  rewrite (H (snd (_return_bytes (client false) [x03] 0 0 1
                     (fresh (response_frame x03 [xff; xff]))))).
  - reflexivity.
  - vm_compute. reflexivity.
Defined.

Lemma bit_reads_return_binary_expansion_witness :
  fst (read_do_integers (client false) 0 0 8 (fresh (response_frame x01 [x0f]))) =
    Ok [1; 1; 1; 1] /\
  len (bits_of_payload [x0f]) < 8 * len [x0f].
Proof.
  destruct (bit_reads_return_binary_expansion (client false) 0 0 8
              (fresh (response_frame x01 [x0f]))
              (snd (_return_bytes (client false) [x01] 0 0 8
                      (fresh (response_frame x01 [x0f]))))
              [x0f]) as (Hdo & _ & _ & _ & Hshort).
  split.
  - rewrite Hdo; [reflexivity|]. vm_compute. reflexivity.
  - apply (Hshort x0f []); [reflexivity|]. vm_compute. reflexivity.
Defined.

(** C5, as stated, fails: one coil is requested, the payload byte 0x01 has
    seven leading zero bits, and the returned sequence [[1]] has length 1,
    which is the requested count and not less. *)
Lemma bit_read_not_shorter_than_count :
  fst (_return_bytes (client false) [x01] 0 0 1 (fresh (response_frame x01 [x01]))) =
    Ok [x01] /\
  Z_of_byte x01 < 128 /\
  fst (read_do_integers (client false) 0 0 1 (fresh (response_frame x01 [x01]))) =
    Ok [1] /\
  ~ (len [1] < 1).
Proof.
  split; [vm_compute; reflexivity|]. split; [vm_compute; reflexivity|].
  split; [vm_compute; reflexivity|]. vm_compute. discriminate.
Defined.

(** ** Coils against discrete inputs *)

Lemma bit_reads_share_pipeline_witness :
  read_do_integers (client false) 1 0 1 (fresh (response_frame x01 [x05])) =
    (Err (ValueError "Device address is not in range (0-255)"),
     fresh (response_frame x01 [x05])) /\
  read_di_integers (client false) 1 0 1 (fresh (response_frame x01 [x05])) =
    (Err (ValueError "Device address is not in range (0-255)"),
     fresh (response_frame x01 [x05])) /\
  validate (client false) [x02] (response_frame x01 [x05]) =
    Err (FunctionError "Invalid function") /\
  validate (client false) [x01] (response_frame x02 [x05]) =
    Err (FunctionError "Invalid function") /\
  fst (read_do_integers (client false) 0 0 1 (fresh (response_frame x01 [x05]))) =
    Ok [1; 0; 1] /\
  fst (read_di_integers (client false) 0 0 1 (fresh (response_frame x01 [x05]))) =
    Err (FunctionError "Invalid function").
Proof.
  assert (Hquiet : calls (snd (read_do_integers (client false) 1 0 1
                                 (fresh (response_frame x01 [x05])))) = [])
    by (vm_compute; reflexivity).
  assert (Hdo0 : read_do_integers (client false) 0 0 1
                   (fresh (response_frame x01 [x05])) =
                 (Ok [1; 0; 1],
                  snd (read_do_integers (client false) 0 0 1
                         (fresh (response_frame x01 [x05])))))
    by (vm_compute; reflexivity).
  assert (Hcalls1 : exists request,
             calls (snd (read_do_integers (client false) 0 0 1
                           (fresh (response_frame x01 [x05])))) =
             [Write request; Read 7 (response_frame x01 [x05])])
    by (eexists; vm_compute; reflexivity).
  assert (Hcalls2 : exists request,
             calls (snd (read_di_integers (client false) 0 0 1
                           (fresh (response_frame x01 [x05])))) =
             [Write request; Read 7 (response_frame x01 [x05])])
    by (eexists; vm_compute; reflexivity).
  destruct Hcalls1 as (q1 & Hcalls1). destruct Hcalls2 as (q2 & Hcalls2).
  destruct (@bit_reads_share_pipeline Scripted _ _ (client false) 1 0 1
              (fresh (response_frame x01 [x05])))
    as (_ & _ & [(e & _ & Hdo & Hdi)|Hio] & H12 & H21).
  2:{ destruct Hio as (address & fields & e1 & r1 & e2 & r2 & _ & Hc & _).
      rewrite Hquiet in Hc. unfold exchange_calls, fresh in Hc.
      cbn [calls app] in Hc. discriminate Hc. }
  assert (He : e = ValueError "Device address is not in range (0-255)").
  { assert (Hfst : fst (read_do_integers (client false) 1 0 1
                          (fresh (response_frame x01 [x05]))) =
                   Err (ValueError "Device address is not in range (0-255)"))
      by (vm_compute; reflexivity).
    rewrite Hdo in Hfst. cbn [fst] in Hfst. now injection Hfst. }
  subst e.
  split; [exact Hdo|]. split; [exact Hdi|].
  split; [apply (H12 _ [x05]); vm_compute; reflexivity|].
  split; [apply (H21 _ [x05]); vm_compute; reflexivity|].
  destruct (@bit_reads_share_pipeline Scripted _ _ (client false) 0 0 1
              (fresh (response_frame x01 [x05])))
    as (_ & _ & [(e & _ & Hdo' & _)|Hio] & _).
  { rewrite Hdo0 in Hdo'. discriminate Hdo'. }
  destruct Hio as (address & fields & e1 & r1 & e2 & r2 & _ & Hc1 & Hc2 & _ & _ & Hx & _).
  rewrite Hcalls1 in Hc1. rewrite Hcalls2 in Hc2.
  unfold exchange_calls, fresh, client in Hc1, Hc2.
  cbn [calls echo app] in Hc1, Hc2.
  injection Hc1 as _ Hr1. injection Hc2 as _ Hr2.
  assert (Hok : fst (read_do_integers (client false) 0 0 1
                       (fresh (response_frame x01 [x05]))) = Ok [1; 0; 1])
    by (rewrite Hdo0; reflexivity).
  split; [exact Hok|].
  destruct Hx as [Hx _]; [congruence|]. exact (Hx _ Hok).
Defined.

(** C10, as stated, fails: for address 0, start 0 and count 1 the two
    requests agree at offset 1 and differ at offset 0 (and in the CRC that
    covers it); and on one and the same received frame the coil read returns
    [[1]] while the discrete-input read raises [FunctionError]. *)
Lemma bit_reads_differ_beyond_offset_1 :
  calls (snd (read_do_integers (client false) 0 0 1 (fresh (response_frame x01 [x01])))) =
    [Write ([x01; x00; x00; x00; x01] ++ crc16 [x01; x00; x00; x00; x01]);
     Read 7 (response_frame x01 [x01])] /\
  calls (snd (read_di_integers (client false) 0 0 1 (fresh (response_frame x01 [x01])))) =
    [Write ([x02; x00; x00; x00; x01] ++ crc16 [x02; x00; x00; x00; x01]);
     Read 7 (response_frame x01 [x01])] /\
  nth_error ([x01; x00; x00; x00; x01] ++ crc16 [x01; x00; x00; x00; x01]) 0 <>
  nth_error ([x02; x00; x00; x00; x01] ++ crc16 [x02; x00; x00; x00; x01]) 0 /\
  fst (read_do_integers (client false) 0 0 1 (fresh (response_frame x01 [x01]))) =
    Ok [1] /\
  fst (read_di_integers (client false) 0 0 1 (fresh (response_frame x01 [x01]))) =
    Err (FunctionError "Invalid function").
Proof.
  split; [vm_compute; reflexivity|]. split; [vm_compute; reflexivity|].
  split; [vm_compute; discriminate|]. split; vm_compute; reflexivity.
Defined.

(** * Further properties of the client *)

Section Further.

Context {P : Type} {T : Transport P} {Pf : Platform}.

Implicit Types (self : Modbus) (w : World P).

(** ** Failures before the exchange *)

Lemma struct_pack_H_error (v : Z) :
  ~ 0 <= v <= 65535 -> struct_pack_H v = Err struct_error.
Proof.
  intros H. unfold struct_pack_H.
  destruct (Z.leb_spec 0 v), (Z.leb_spec v 65535); simpl; try reflexivity; lia.
Qed.

Lemma struct_pack_H_ok (v : Z) :
  0 <= v <= 65535 -> struct_pack_H v = Ok [byte_of_Z (v / 256); byte_of_Z v].
Proof.
  intros H. unfold struct_pack_H.
  destruct (Z.leb_spec 0 v), (Z.leb_spec v 65535); simpl; try reflexivity; lia.
Qed.

Lemma _check_device_addr_ok self d : d <= 0 -> _check_device_addr self d = Ok tt.
Proof. apply _check_device_addr_accepts. Qed.

Lemma _return_bytes_bad_count self command d s r w :
  d <= 0 -> 0 <= s <= 65535 -> ~ 0 <= r <= 65535 ->
  _return_bytes self command d s r w = (Err struct_error, w).
Proof.
  intros Hd Hs Hr. apply _return_bytes_no_io. unfold request_frame.
  now rewrite _check_device_addr_ok, struct_pack_H_ok, struct_pack_H_error.
Qed.

(** X1. What [_return_bytes] raises before any I/O, in the order the code
    checks: a positive address raises the invalid-address [ValueError];
    otherwise a start register outside 0..65535 raises [struct.error];
    otherwise a register count outside 0..65535 raises [struct.error];
    otherwise a negative address raises what [bytes] raises for it:
    [ValueError('negative count')] when it fits the index type (from -2^63
    on), [OverflowError] below.  In each case the world is as it was. *)
Theorem errors_before_exchange self command d s r w :
  (0 < d ->
   _return_bytes self command d s r w =
   (Err (ValueError (message self invalid_device_addr)), w)) /\
  (d <= 0 -> ~ 0 <= s <= 65535 ->
   _return_bytes self command d s r w = (Err struct_error, w)) /\
  (d <= 0 -> 0 <= s <= 65535 -> ~ 0 <= r <= 65535 ->
   _return_bytes self command d s r w = (Err struct_error, w)) /\
  (- 2 ^ 63 <= d < 0 -> 0 <= s <= 65535 -> 0 <= r <= 65535 ->
   _return_bytes self command d s r w = (Err (ValueError "negative count"), w)) /\
  (d < - 2 ^ 63 -> 0 <= s <= 65535 -> 0 <= r <= 65535 ->
   _return_bytes self command d s r w =
   (Err (OverflowError "cannot fit 'int' into an index-sized integer"), w)).
Proof.
  change (- 2 ^ 63) with PY_SSIZE_T_MIN.
  split; [|split; [|split; [|split]]].
  - intros Hd. apply _return_bytes_no_io. unfold request_frame.
    now rewrite (proj2 (_check_device_addr_rejects self d) Hd).
  - intros Hd Hs. apply _return_bytes_no_io. unfold request_frame.
    now rewrite _check_device_addr_ok, struct_pack_H_error.
  - apply _return_bytes_bad_count.
  - intros Hd Hs Hr. apply _return_bytes_no_io. unfold request_frame.
    rewrite _check_device_addr_ok, !struct_pack_H_ok by (assumption || lia).
    destruct (bytes_of_int_cases d) as [[H _]|[[_ E]|[[H _]|[H _]]]];
      try (unfold PY_SSIZE_T_MAX in H; lia).
    now rewrite E.
  - intros Hd Hs Hr. apply _return_bytes_no_io. unfold request_frame.
    rewrite _check_device_addr_ok, !struct_pack_H_ok
      by (assumption || unfold PY_SSIZE_T_MIN in Hd; lia).
    destruct (bytes_of_int_cases d) as [[_ E]|[[H _]|[[H _]|[H _]]]];
      try (unfold PY_SSIZE_T_MAX, PY_SSIZE_T_MIN in *; lia).
    now rewrite E.
Qed.

(** A failure of [_return_bytes] is the failure of each read built on it. *)
Lemma read_do_integers_raises self d s n w e w' :
  _return_bytes self [x01] d s n w = (Err e, w') ->
  read_do_integers self d s n w = (Err e, w').
Proof. intros H. unfold read_do_integers, bind. now rewrite H. Qed.

Lemma read_di_integers_raises self d s n w e w' :
  _return_bytes self [x02] d s n w = (Err e, w') ->
  read_di_integers self d s n w = (Err e, w').
Proof. intros H. unfold read_di_integers, bind. now rewrite H. Qed.

Lemma read_ao_integers_raises self d s n int_format is_signed w regs e w' :
  (int_format = "short" /\ regs = n) \/
  (int_format = "long" /\ regs = n * 2) \/
  (int_format = "long long" /\ regs = n * 4) ->
  _return_bytes self [x03] d s regs w = (Err e, w') ->
  read_ao_integers self d s n int_format is_signed w = (Err e, w').
Proof.
  intros [[-> ->]|[[-> ->]|[-> ->]]] H;
    unfold read_ao_integers, bind, ret; simpl; now rewrite H.
Qed.

Lemma read_ao_floats_raises self d s n float_precision w regs e w' :
  (float_precision = "float" /\ regs = n * 2) \/
  (float_precision = "double" /\ regs = n * 4) ->
  _return_bytes self [x03] d s regs w = (Err e, w') ->
  read_ao_floats self d s n float_precision w = (Err e, w').
Proof.
  intros [[-> ->]|[-> ->]] H;
    unfold read_ao_floats, bind, ret; simpl; now rewrite H.
Qed.

(** X2. How many values one read can ask for: with an address that passes
    the check and a valid start register, a count that is negative or makes
    the register count exceed 65535 (more than 65535 bits or shorts, 32767
    longs or floats, 16383 long longs or doubles) raises [struct.error]
    before any I/O. *)
Theorem value_count_limits self d s n w :
  d <= 0 -> 0 <= s <= 65535 ->
  (~ 0 <= n <= 65535 ->
   read_do_integers self d s n w = (Err struct_error, w) /\
   read_di_integers self d s n w = (Err struct_error, w) /\
   forall is_signed,
     read_ao_integers self d s n "short" is_signed w = (Err struct_error, w)) /\
  (~ 0 <= n <= 32767 ->
   (forall is_signed,
      read_ao_integers self d s n "long" is_signed w = (Err struct_error, w)) /\
   read_ao_floats self d s n "float" w = (Err struct_error, w)) /\
  (~ 0 <= n <= 16383 ->
   (forall is_signed,
      read_ao_integers self d s n "long long" is_signed w = (Err struct_error, w)) /\
   read_ao_floats self d s n "double" w = (Err struct_error, w)).
Proof.
  intros Hd Hs.
  assert (Hraise : forall command r, ~ 0 <= r <= 65535 ->
            _return_bytes self command d s r w = (Err struct_error, w)).
  { intros command r Hr. now apply _return_bytes_bad_count. }
  split; [|split]; intros Hn.
  - split; [|split]; intros.
    + apply read_do_integers_raises, Hraise, Hn.
    + apply read_di_integers_raises, Hraise, Hn.
    + apply (read_ao_integers_raises _ _ _ _ _ _ _ n); auto.
  - split; intros.
    + apply (read_ao_integers_raises _ _ _ _ _ _ _ (n * 2)); auto.
      apply Hraise. lia.
    + apply (read_ao_floats_raises _ _ _ _ _ _ (n * 2)); auto.
      apply Hraise. lia.
  - split; intros.
    + apply (read_ao_integers_raises _ _ _ _ _ _ _ (n * 4)); auto.
      apply Hraise. lia.
    + apply (read_ao_floats_raises _ _ _ _ _ _ (n * 4)); auto.
      apply Hraise. lia.
Qed.

(** ** What an exception tells about the exchange *)


Lemma validate_error_kind self command response e :
  validate self command response = Err e ->
  (e = TimeoutError (message self no_respond) /\ response = []) \/
  (response <> [] /\
   (e = CrcError (message self crc_is_not_correct) \/
    e = FunctionError (message self invalid_function))).
Proof.
  unfold validate, _check_response, _check_crc, _check_command.
  destruct (Z.eqb_spec (len response) 0) as [E|E].
  - intros [= <-]. left. split; [reflexivity|now apply len_zero].
  - assert (response <> []) by (intros ->; now apply E).
    destruct (negb _); [intros [= <-]; auto|].
    destruct (negb _); [intros [= <-]; auto|discriminate].
Qed.

(** X3. The class of the exception raised by [_return_bytes] tells whether
    the device was addressed: [ValueError], [struct.error] and
    [OverflowError] mean that nothing was written, read or printed;
    [TimeoutError] means that the request was written and the response read
    returned no byte; [CrcError] and [FunctionError] mean that the request
    was written and a non-empty response was read. *)
Theorem exception_tells_exchange self command d s r w e w' :
  _return_bytes self command d s r w = (Err e, w') ->
  match e with
  | ValueError _ | struct_error | OverflowError _ => w' = w
  | TimeoutError m =>
      m = message self no_respond /\
      exists echoed,
        calls w' = calls w ++
          exchange_calls self (request_of command s r) (r * 2 + 5) echoed []
  | CrcError m =>
      m = message self crc_is_not_correct /\
      exists echoed response,
        response <> [] /\
        calls w' = calls w ++
          exchange_calls self (request_of command s r) (r * 2 + 5) echoed response
  | FunctionError m =>
      m = message self invalid_function /\
      exists echoed response,
        response <> [] /\
        calls w' = calls w ++
          exchange_calls self (request_of command s r) (r * 2 + 5) echoed response
  end.
Proof.
  intros Hrun.
  destruct (request_frame self command d s r) as [request|e0] eqn:E.
  - destruct (_return_bytes_io self command d s r w request E)
      as (echoed & response & w1 & Hrun' & Hc).
    rewrite Hrun in Hrun'. injection Hrun' as Hv <-.
    apply request_frame_ok in E as (_ & _ & _ & ->).
    symmetry in Hv. apply validate_error_kind in Hv.
    destruct Hv as [[-> ->]|[Hne [->| ->]]].
    + split; [reflexivity|]. now exists echoed.
    + split; [reflexivity|]. now exists echoed, response.
    + split; [reflexivity|]. now exists echoed, response.
  - rewrite (_return_bytes_no_io _ _ _ _ _ _ _ E) in Hrun.
    injection Hrun as <- <-.
    apply request_frame_error_kind in E.
    destruct e0; simpl in E; try contradiction; reflexivity.
Qed.

(** ** What validation looks at *)

(** X4. Validation looks at the function byte and the CRC only: a frame
    [address, function, byte count, payload, CRC] whose CRC bytes are right
    and whose function code is the request's is accepted whatever its address
    byte and its byte-count byte are, and the payload is everything between
    the third byte and the CRC. *)
Theorem validation_ignores_address_and_count self f a k payload y z :
  crc16 (a :: f :: k :: payload) = [y; z] ->
  validate self [f] (a :: f :: k :: payload ++ [y; z]) = Ok payload /\
  (forall d s r w res w' evs n,
     _return_bytes self [f] d s r w = (res, w') ->
     calls w' = calls w ++ evs ++ [Read n (a :: f :: k :: payload ++ [y; z])] ->
     res = Ok payload).
Proof.
  intros Hcrc.
  assert (Hv : validate self [f] (a :: f :: k :: payload ++ [y; z]) = Ok payload).
  { rewrite validate_good.
    - now rewrite slice_payload.
    - discriminate.
    - change (a :: f :: k :: payload ++ [y; z])
        with ((a :: f :: k :: payload) ++ [y; z]).
      now rewrite slice_body, slice_trailer.
    - now apply function_byte_agrees. }
  split; [exact Hv|].
  intros d s r w res w' evs n Hrun Hcalls.
  now destruct (_return_bytes_received _ _ _ _ _ _ _ _ _ _ _ Hrun Hcalls) as (-> & _ & _).
Qed.

Lemma len_slice_payload {A} (s : list A) :
  len (slice (Some 3) (Some (-2)) s) = Z.max 0 (len s - 5).
Proof.
  unfold slice. pose proof (len_nonneg s) as Hn.
  rewrite (slice_bound_pos _ 3), (slice_bound_neg _ (-2)) by lia.
  unfold len in *. rewrite length_firstn, length_skipn. lia.
Qed.

Lemma validate_ok self command response payload :
  validate self command response = Ok payload ->
  payload = slice (Some 3) (Some (-2)) response /\ response <> [].
Proof.
  unfold validate, _check_response.
  destruct (Z.eqb_spec (len response) 0) as [E|E]; [discriminate|].
  destruct (_check_crc self response); [|discriminate].
  destruct (_check_command self command response); [|discriminate].
  intros [= <-]. split; [reflexivity|]. intros ->. now apply E.
Qed.

(** X5. Whatever [_return_bytes] returns was cut out of the response it
    read: it is [response[3:-2]], so it has [len(response) - 5] bytes, and
    none when the response has five bytes or fewer. *)
Theorem payload_comes_from_response self command d s r w payload w' :
  _return_bytes self command d s r w = (Ok payload, w') ->
  exists echoed response,
    calls w' = calls w ++
      exchange_calls self (request_of command s r) (r * 2 + 5) echoed response /\
    payload = slice (Some 3) (Some (-2)) response /\
    len payload = Z.max 0 (len response - 5).
Proof.
  intros Hrun.
  destruct (request_frame self command d s r) as [request|e0] eqn:E.
  - destruct (_return_bytes_io self command d s r w request E)
      as (echoed & response & w1 & Hrun' & Hc).
    rewrite Hrun in Hrun'. injection Hrun' as Hv <-.
    apply request_frame_ok in E as (_ & _ & _ & ->).
    symmetry in Hv. apply validate_ok in Hv as [-> _].
    exists echoed, response. repeat split; [exact Hc|apply len_slice_payload].
  - rewrite (_return_bytes_no_io _ _ _ _ _ _ _ E) in Hrun. discriminate.
Qed.

(** ** Diagnostics *)

Lemma append_assoc (a b c : string) : ((a ++ b) ++ c = a ++ (b ++ c))%string.
Proof. induction a as [|x a IH]; simpl; [reflexivity|now rewrite IH]. Qed.

Lemma append_empty (a : string) : (a ++ "")%string = a.
Proof. induction a as [|x a IH]; simpl; [reflexivity|now rewrite IH]. Qed.

Lemma length_append (a b : string) :
  String.length (a ++ b) = (String.length a + String.length b)%nat.
Proof. induction a as [|x a IH]; simpl; [reflexivity|now rewrite IH]. Qed.

(** The zero-padding by ['0'.join] gives every byte two digits. *)
Lemma hex_chunk_text (b : byte) :
  (let h := str_from 1 (hex (Z_of_byte b)) in
   if (String.length h =? 3)%nat then h else str_join "0" h) = hex_byte_text b.
Proof. destruct b; vm_compute; reflexivity. Qed.

Lemma hex_dump_acc (frame : bytes) (acc : string) :
  fold_left
    (fun formatted i =>
       let h := str_from 1 (hex (Z_of_byte i)) in
       (formatted ++ os_path_sep ++
        (if (String.length h =? 3)%nat then h else str_join "0" h))%string)
    frame acc = (acc ++ dump_text os_path_sep frame)%string.
Proof.
  revert acc. induction frame as [|b frame IH]; intros acc; cbn [fold_left dump_text fold_right].
  - now rewrite append_empty.
  - rewrite IH. cbv zeta. rewrite hex_chunk_text.
    fold (dump_text os_path_sep frame). now rewrite !append_assoc.
Qed.

Lemma hex_dump_text (frame : bytes) : hex_dump frame = dump_text os_path_sep frame.
Proof. unfold hex_dump. now rewrite hex_dump_acc. Qed.

Lemma dump_text_length (sep : string) (frame : bytes) :
  String.length (dump_text sep frame) =
  (List.length frame * (String.length sep + 3))%nat.
Proof.
  induction frame as [|b frame IH]; [reflexivity|].
  cbn [dump_text fold_right]. fold (dump_text sep frame).
  rewrite !length_append, IH. simpl. lia.
Qed.

(** X6. The diagnostic dump: when its flag is set, [_print_request] (and
    likewise [_print_response]) prints one line in which every byte of the
    frame appears, in order, as the path separator, [x] and exactly two
    lower-case hexadecimal digits, high digit first; it never touches the
    port.  With the flag unset it does nothing. *)
Theorem dump_prints_two_digits_per_byte self frame w :
  _print_request self frame w =
    (Ok tt,
     if print_request self
     then {| port := port w; calls := calls w;
             stdout := stdout w ++ [dump_text os_path_sep frame] |}
     else w) /\
  _print_response self frame w =
    (Ok tt,
     if print_response self
     then {| port := port w; calls := calls w;
             stdout := stdout w ++ [dump_text os_path_sep frame] |}
     else w) /\
  String.length (dump_text os_path_sep frame) =
    (List.length frame * (String.length os_path_sep + 3))%nat.
Proof.
  split; [|split].
  - unfold _print_request, print, ret. rewrite hex_dump_text.
    now destruct (print_request self).
  - unfold _print_response, print, ret. rewrite hex_dump_text.
    now destruct (print_response self).
  - apply dump_text_length.
Qed.

(** X7. Diagnostics do not interfere: with the print flags set any other
    way, [_return_bytes] returns the same result, leaves the port in the
    same state and makes the same calls on it. *)
Theorem printing_does_not_interfere self rq rs command d s r w :
  fst (_return_bytes (with_printing self rq rs) command d s r w) =
    fst (_return_bytes self command d s r w) /\
  port (snd (_return_bytes (with_printing self rq rs) command d s r w)) =
    port (snd (_return_bytes self command d s r w)) /\
  calls (snd (_return_bytes (with_printing self rq rs) command d s r w)) =
    calls (snd (_return_bytes self command d s r w)).
Proof.
  rewrite !_return_bytes_stages.
  change (request_frame (with_printing self rq rs) command d s r)
    with (request_frame self command d s r).
  destruct (request_frame self command d s r) as [request|e]; [|now repeat split].
  destruct (exchange_explicit self request r w) as (w1 & -> & Hp1 & Hc1).
  destruct (exchange_explicit (with_printing self rq rs) request r w)
    as (w2 & -> & Hp2 & Hc2).
  cbn [echo with_printing] in Hp2, Hc2 |- *.
  change (validate (with_printing self rq rs)) with (validate self).
  unfold exchange_calls in Hc1, Hc2. cbn [echo with_printing] in Hc2.
  cbn [fst snd]. repeat split; congruence.
Qed.

(** ** Decoding registers *)

Lemma _return_bytes_ok self command d s r w payload w' :
  _return_bytes self command d s r w = (Ok payload, w') ->
  d = 0 /\ 0 <= s <= 65535 /\ 0 <= r <= 65535.
Proof.
  intros Hrun.
  destruct (request_frame self command d s r) as [request|e0] eqn:E.
  - apply request_frame_ok in E. intuition.
  - rewrite (_return_bytes_no_io _ _ _ _ _ _ _ E) in Hrun. discriminate.
Qed.

Lemma unpack_be_repeat (c : ascii) (k n : nat) (buf : bytes) (vs : list pyval) :
  code_size c = Some k ->
  unpack_be (repeat c n) buf = Some vs ->
  List.length vs = n /\ List.length buf = (n * k)%nat /\
  Forall (fun v => exists chunk, List.length chunk = k /\ v = unpack_code c chunk) vs.
Proof.
  intros Hk. revert buf vs. induction n as [|n IH]; intros buf vs; cbn [repeat unpack_be].
  - destruct buf; [|discriminate]. intros [= <-]. repeat split. constructor.
  - rewrite Hk. destruct (Nat.ltb_spec (List.length buf) k) as [Hlt|Hge]; [discriminate|].
    destruct (unpack_be (repeat c n) (skipn k buf)) as [vs'|] eqn:E; [|discriminate].
    intros [= <-]. destruct (IH _ _ E) as (Hl & Hb & Hf).
    rewrite length_skipn in Hb. repeat split.
    + simpl. now rewrite Hl.
    + simpl. lia.
    + constructor; [|exact Hf].
      exists (firstn k buf). split; [|reflexivity].
      rewrite length_firstn. lia.
Qed.

(** Decoding [n] values of one code: the stage after [_return_bytes] in the
    two register reads. *)
Lemma struct_unpack_repeat (c : ascii) (k : nat) (n : Z) (payload : bytes)
    (data : list pyval) :
  code_size c = Some k -> 0 <= n ->
  struct_unpack (">" ++ str_mul (String c EmptyString) n) payload = Ok data ->
  len data = n /\ len payload = n * Z.of_nat k /\
  Forall (fun v => exists chunk, List.length chunk = k /\ v = unpack_code c chunk) data.
Proof.
  intros Hk Hn. unfold struct_unpack. simpl append. cbv beta iota.
  rewrite list_ascii_of_str_mul.
  destruct (unpack_be _ payload) as [vs|] eqn:E; [|discriminate].
  intros [= <-]. destruct (unpack_be_repeat _ _ _ _ _ Hk E) as (Hl & Hb & Hf).
  unfold len. rewrite Hl, Hb. repeat split; try lia. exact Hf.
Qed.

Lemma signed_be_range (chunk : bytes) :
  (1 <= List.length chunk)%nat ->
  - 2 ^ (8 * len chunk - 1) <= signed_be chunk < 2 ^ (8 * len chunk - 1).
Proof.
  intros Hl. unfold signed_be. cbv zeta.
  pose proof (int_from_bytes_big_range chunk) as Hr.
  assert (Hlen : 1 <= len chunk) by (unfold len; lia).
  assert (E : 256 ^ len chunk = 2 * 2 ^ (8 * len chunk - 1)).
  { change 256 with (2 ^ 8). rewrite <- Z.pow_mul_r by lia.
    replace (8 * len chunk) with (1 + (8 * len chunk - 1)) at 1 by lia.
    rewrite Z.pow_add_r by lia. reflexivity. }
  assert (E' : 2 ^ (8 * len chunk) = 2 * 2 ^ (8 * len chunk - 1)).
  { replace (8 * len chunk) with (1 + (8 * len chunk - 1)) at 1 by lia.
    rewrite Z.pow_add_r by lia. reflexivity. }
  rewrite E in Hr. rewrite E'.
  destruct (Z.ltb_spec (int_from_bytes_big chunk) (2 ^ (8 * len chunk - 1))); lia.
Qed.

(** X8. A successful [read_ao_integers] returns exactly [ints_amount]
    integers, each within the signed range of its format (16, 32 or 64
    bits), decoded from a payload of exactly 2, 4 or 8 bytes per value. *)
Theorem integers_read_are_in_signed_range self d s n int_format is_signed w data w' :
  read_ao_integers self d s n int_format is_signed w = (Ok data, w') ->
  exists k payload,
    int_format_bytes int_format = Some k /\
    _return_bytes self [x03] d s (registers_for int_format n) w = (Ok payload, w') /\
    len payload = n * Z.of_nat k /\
    len data = n /\
    Forall (fun v => exists z, v = PyInt z /\
                     - 2 ^ (8 * Z.of_nat k - 1) <= z < 2 ^ (8 * Z.of_nat k - 1)) data.
Proof.
  unfold read_ao_integers, int_format_bytes, registers_for, bind, ret, raise, lift.
  assert (Hgen : forall (c : ascii) (k : nat) regs,
            code_size c = Some k -> (1 <= k)%nat -> (0 <= regs -> 0 <= n) ->
            (forall chunk, unpack_code c chunk = PyInt (signed_be chunk)) ->
            match _return_bytes self [x03] d s regs w with
            | (Ok byte_data, w1) =>
                match struct_unpack (">" ++ str_mul (String c EmptyString) n) byte_data with
                | Ok a => (Ok a, w1)
                | Err e => (Err e, w1)
                end
            | (Err e, w1) => (Err e, w1)
            end = (Ok data, w') ->
            exists payload,
              _return_bytes self [x03] d s regs w = (Ok payload, w') /\
              len payload = n * Z.of_nat k /\ len data = n /\
              Forall (fun v => exists z, v = PyInt z /\
                - 2 ^ (8 * Z.of_nat k - 1) <= z < 2 ^ (8 * Z.of_nat k - 1)) data).
  { intros c k regs Hk Hk1 Hn Hc.
    destruct (_return_bytes self [x03] d s regs w) as [[payload|e] w1] eqn:Hrun;
      [|discriminate].
    destruct (struct_unpack _ payload) as [vs|] eqn:Hu; [|discriminate].
    intros [= <- <-]. exists payload.
    apply _return_bytes_ok in Hrun as Hok. destruct Hok as (_ & _ & Hr).
    destruct (struct_unpack_repeat c k n payload vs Hk (Hn (proj1 Hr)) Hu)
      as (Hl & Hp & Hf).
    repeat split; try assumption.
    eapply Forall_impl; [|exact Hf].
    intros v (chunk & Hlc & ->). exists (signed_be chunk). split; [apply Hc|].
    pose proof (signed_be_range chunk) as Hrg. unfold len in Hrg. rewrite Hlc in Hrg.
    apply Hrg. lia. }
  destruct (String.eqb_spec int_format "short") as [->|H1]; simpl.
  { intros H. exists 2%nat.
    destruct (Hgen "h"%char 2%nat n) as (payload & ?); auto; try lia.
    exists payload. auto. }
  destruct (String.eqb_spec int_format "long") as [->|H2]; simpl.
  { intros H. exists 4%nat.
    destruct (Hgen "l"%char 4%nat (n * 2)) as (payload & ?); auto; try lia.
    exists payload. auto. }
  destruct (String.eqb_spec int_format "long long") as [->|H3]; simpl.
  { intros H. exists 8%nat.
    destruct (Hgen "q"%char 8%nat (n * 4)) as (payload & ?); auto; try lia.
    exists payload. auto. }
  discriminate.
Qed.

Lemma unpack_be_wrong_length (c : ascii) (k n : nat) (buf : bytes) :
  code_size c = Some k -> List.length buf <> (n * k)%nat ->
  unpack_be (repeat c n) buf = None.
Proof.
  intros Hk Hl.
  destruct (unpack_be (repeat c n) buf) as [vs|] eqn:E; [|reflexivity].
  destruct (unpack_be_repeat _ _ _ _ _ Hk E) as (_ & Hb & _). contradiction.
Qed.

(** X10. When the payload handed over by [_return_bytes] does not hold
    exactly the bytes of the values asked for (for instance because the
    device answered with fewer registers), [read_ao_integers] and
    [read_ao_floats] raise [struct.error]; the exchange has then taken
    place. *)
Theorem wrong_payload_length_raises self d s n selector w payload w' :
  _return_bytes self [x03] d s (registers_for selector n) w = (Ok payload, w') ->
  (forall k is_signed,
     int_format_bytes selector = Some k -> len payload <> n * Z.of_nat k ->
     read_ao_integers self d s n selector is_signed w = (Err struct_error, w')) /\
  (forall k,
     float_precision_bytes selector = Some k -> len payload <> n * Z.of_nat k ->
     read_ao_floats self d s n selector w = (Err struct_error, w')).
Proof.
  intros Hrun.
  assert (Hgen : forall (c : ascii) (k : nat),
            code_size c = Some k -> len payload <> n * Z.of_nat k ->
            struct_unpack (">" ++ str_mul (String c EmptyString) n) payload =
            Err struct_error).
  { intros c k Hk Hl. unfold struct_unpack. simpl append. cbv beta iota.
    rewrite list_ascii_of_str_mul.
    apply _return_bytes_ok in Hrun as (_ & _ & Hr).
    rewrite (unpack_be_wrong_length c k); [reflexivity|exact Hk|].
    unfold len in Hl. intros E. apply Hl. rewrite E.
    assert (0 <= n).
    { unfold registers_for in Hr.
      destruct (_ =? _)%string; [lia|].
      destruct (_ =? _)%string; [lia|].
      destruct (_ =? _)%string; lia. }
    lia. }
  split.
  - intros k is_signed Hk Hl. revert Hk Hrun.
    unfold read_ao_integers, int_format_bytes, registers_for, bind, ret, raise, lift.
    destruct (String.eqb_spec selector "short") as [->|H1]; simpl.
    { intros [= <-] ->. pose proof (Hgen "h"%char 2%nat eq_refl Hl) as Hg.
      simpl append in Hg. now rewrite Hg. }
    destruct (String.eqb_spec selector "long") as [->|H2]; simpl.
    { intros [= <-] ->. pose proof (Hgen "l"%char 4%nat eq_refl Hl) as Hg.
      simpl append in Hg. now rewrite Hg. }
    destruct (String.eqb_spec selector "long long") as [->|H3]; simpl.
    { intros [= <-] ->. pose proof (Hgen "q"%char 8%nat eq_refl Hl) as Hg.
      simpl append in Hg. now rewrite Hg. }
    discriminate.
  - intros k Hk Hl. revert Hk Hrun.
    unfold read_ao_floats, float_precision_bytes, registers_for, bind, ret, raise, lift.
    destruct (String.eqb_spec selector "float") as [->|H1]; simpl.
    { intros [= <-] ->. pose proof (Hgen "f"%char 4%nat eq_refl Hl) as Hg.
      simpl append in Hg. now rewrite Hg. }
    destruct (String.eqb_spec selector "double") as [->|H2]; simpl.
    { intros [= <-] ->. pose proof (Hgen "d"%char 8%nat eq_refl Hl) as Hg.
      simpl append in Hg. now rewrite Hg. }
    discriminate.
Qed.

(** ** Round trips through the integer formats *)

Lemma int_from_bytes_big_snoc (l : bytes) (b : byte) :
  int_from_bytes_big (l ++ [b]) = int_from_bytes_big l * 256 + Z_of_byte b.
Proof. unfold int_from_bytes_big. now rewrite fold_left_app. Qed.

Lemma length_encode_be (k : nat) (v : Z) : List.length (encode_be k v) = k.
Proof.
  revert v. induction k as [|k IH]; intros v; simpl; [reflexivity|].
  rewrite length_app, IH. simpl. lia.
Qed.

Lemma int_from_bytes_big_encode_be (k : nat) (v : Z) :
  int_from_bytes_big (encode_be k v) = v mod 256 ^ Z.of_nat k.
Proof.
  revert v. induction k as [|k IH]; intros v.
  - simpl. now rewrite Z.mod_1_r.
  - cbn [encode_be]. rewrite int_from_bytes_big_snoc, IH, Z_of_byte_of_Z.
    rewrite Nat2Z.inj_succ, Z.pow_succ_r by lia.
    rewrite Z.rem_mul_r by (try apply Z.pow_pos_nonneg; lia). lia.
Qed.

Lemma signed_be_encode_be (k : nat) (v : Z) :
  (1 <= k)%nat ->
  - 2 ^ (8 * Z.of_nat k - 1) <= v < 2 ^ (8 * Z.of_nat k - 1) ->
  signed_be (encode_be k v) = v.
Proof.
  intros Hk Hv. unfold signed_be. cbv zeta.
  rewrite int_from_bytes_big_encode_be.
  unfold len. rewrite length_encode_be.
  set (M := 2 ^ (8 * Z.of_nat k - 1)) in *.
  assert (HM : 0 < M) by (apply Z.pow_pos_nonneg; lia).
  assert (E : 2 ^ (8 * Z.of_nat k) = 2 * M).
  { unfold M. replace (8 * Z.of_nat k) with (1 + (8 * Z.of_nat k - 1)) at 1 by lia.
    rewrite Z.pow_add_r by lia. reflexivity. }
  assert (E' : 256 ^ Z.of_nat k = 2 * M).
  { change 256 with (2 ^ 8). rewrite <- Z.pow_mul_r by lia. exact E. }
  rewrite E, E'.
  destruct (Z.ltb_spec v 0) as [Hneg|Hpos].
  - assert (Hmod : v mod (2 * M) = v + 2 * M)
      by (symmetry; apply (Z.mod_unique v (2 * M) (-1)); lia).
    rewrite Hmod. destruct (Z.ltb_spec (v + 2 * M) M); lia.
  - rewrite Z.mod_small by lia.
    destruct (Z.ltb_spec v M); lia.
Qed.

Lemma unpack_be_ints (c : ascii) (k : nat) (vs : list Z) :
  code_size c = Some k -> (1 <= k)%nat ->
  (forall chunk, unpack_code c chunk = PyInt (signed_be chunk)) ->
  Forall (fun v => - 2 ^ (8 * Z.of_nat k - 1) <= v < 2 ^ (8 * Z.of_nat k - 1)) vs ->
  unpack_be (repeat c (List.length vs)) (ints_be k vs) = Some (map PyInt vs).
Proof.
  intros Hk Hk1 Hc. induction 1 as [|v vs Hv _ IH]; [reflexivity|].
  cbn [List.length repeat ints_be flat_map map].
  change (flat_map (encode_be k) vs) with (ints_be k vs).
  cbn [unpack_be]. rewrite Hk.
  pose proof (length_encode_be k v) as Hl.
  destruct (Nat.ltb_spec (List.length (encode_be k v ++ ints_be k vs)) k) as [Hlt|_].
  { rewrite length_app in Hlt. lia. }
  rewrite skipn_app, skipn_all2, Hl, Nat.sub_diag by lia. cbn [skipn app].
  rewrite IH.
  rewrite firstn_app, Hl, Nat.sub_diag, firstn_all2 by lia.
  cbn [firstn]. rewrite app_nil_r, Hc, signed_be_encode_be by assumption.
  reflexivity.
Qed.

(** X11. Round trip for every integer format: when the registers read hold
    a list of integers laid out big-endian in two's complement on 2, 4 or 8
    bytes each, all within the signed range of that width, [read_ao_integers]
    with ['short'], ['long'] or ['long long'] returns the list itself. *)
Theorem signed_decoding_round_trip self d s (vs : list Z) int_format k is_signed w w' :
  int_format_bytes int_format = Some k ->
  Forall (fun v => - 2 ^ (8 * Z.of_nat k - 1) <= v < 2 ^ (8 * Z.of_nat k - 1)) vs ->
  _return_bytes self [x03] d s (registers_for int_format (len vs)) w =
    (Ok (ints_be k vs), w') ->
  read_ao_integers self d s (len vs) int_format is_signed w = (Ok (map PyInt vs), w').
Proof.
  intros Hk Hvs.
  assert (Hgen : forall (c : ascii),
            code_size c = Some k -> (1 <= k)%nat ->
            (forall chunk, unpack_code c chunk = PyInt (signed_be chunk)) ->
            struct_unpack (String ">" (str_mul (String c EmptyString) (len vs)))
              (ints_be k vs) = Ok (map PyInt vs)).
  { intros c Hc Hk1 Hu. unfold struct_unpack.
    rewrite list_ascii_of_str_mul. unfold len. rewrite Nat2Z.id.
    now rewrite unpack_be_ints. }
  revert Hk Hgen.
  unfold read_ao_integers, int_format_bytes, registers_for, bind, ret, raise, lift.
  destruct (String.eqb_spec int_format "short") as [->|H1]; simpl.
  { intros [= <-] Hgen ->. rewrite (Hgen "h"%char); auto; lia. }
  destruct (String.eqb_spec int_format "long") as [->|H2]; simpl.
  { intros [= <-] Hgen ->. rewrite (Hgen "l"%char); auto; lia. }
  destruct (String.eqb_spec int_format "long long") as [->|H3]; simpl.
  { intros [= <-] Hgen ->. rewrite (Hgen "q"%char); auto; lia. }
  discriminate.
Qed.

(** ** Floats *)

Lemma double_fields (sign e m : Z) :
  0 <= sign <= 1 -> 0 <= e < 2048 -> 0 <= m < 2 ^ 52 ->
  (sign * 2 ^ 63 + (e * 2 ^ 52 + m)) / 2 ^ 63 = sign /\
  ((sign * 2 ^ 63 + (e * 2 ^ 52 + m)) / 2 ^ 52) mod 2048 = e /\
  (sign * 2 ^ 63 + (e * 2 ^ 52 + m)) mod 2 ^ 52 = m.
Proof.
  change (2 ^ 63) with 9223372036854775808.
  change (2 ^ 52) with 4503599627370496.
  intros Hs He Hm. repeat split; Z.to_euclidean_division_equations; lia.
Qed.

Lemma single_fields (b : Z) :
  0 <= b < 2 ^ 32 ->
  0 <= b / 2 ^ 31 <= 1 /\ 0 <= (b / 2 ^ 23) mod 256 < 256 /\ 0 <= b mod 2 ^ 23 < 2 ^ 23.
Proof.
  change (2 ^ 32) with 4294967296. change (2 ^ 31) with 2147483648.
  change (2 ^ 23) with 8388608.
  intros Hb. repeat split; Z.to_euclidean_division_equations; lia.
Qed.

Lemma double_scaled_fields (sign e m : Z) :
  0 <= sign <= 1 -> 0 <= e < 2048 -> 0 <= m < 2 ^ 52 ->
  double_scaled (sign * 2 ^ 63 + (e * 2 ^ 52 + m)) =
  (if sign =? 0 then 1 else -1) * (if e =? 0 then m else (2 ^ 52 + m) * 2 ^ (e - 1)).
Proof.
  intros Hs He Hm. unfold double_scaled. cbv zeta.
  destruct (double_fields sign e m Hs He Hm) as (-> & -> & ->). reflexivity.
Qed.

(** Widening a finite binary32 datum keeps its value. *)
Lemma double_of_single_exact (b : Z) :
  0 <= b < 2 ^ 32 -> (b / 2 ^ 23) mod 256 <> 255 ->
  double_scaled (double_of_single b) = single_scaled b.
Proof.
  intros Hb Hfin. destruct (single_fields b Hb) as (Hs & He & Hm).
  unfold double_of_single, single_scaled. cbv zeta.
  set (sign := b / 2 ^ 31) in *. set (e := (b / 2 ^ 23) mod 256) in *.
  set (m := b mod 2 ^ 23) in *.
  destruct (Z.eqb_spec e 0) as [He0|He0].
  - destruct (Z.eqb_spec m 0) as [Hm0|Hm0].
    + replace (sign * 2 ^ 63 + 0) with (sign * 2 ^ 63 + (0 * 2 ^ 52 + 0)) by lia.
      rewrite double_scaled_fields by lia. rewrite Hm0. simpl (0 =? 0). lia.
    + assert (Hpos : 0 < m) by lia.
      pose proof (Z.log2_spec m Hpos) as [Hlo Hhi].
      pose proof (Z.log2_nonneg m) as Hh0.
      assert (Hh : Z.log2 m < 23) by (apply Z.log2_lt_pow2; lia).
      set (h := Z.log2 m) in *.
      assert (HP : 0 < 2 ^ h) by (apply Z.pow_pos_nonneg; lia).
      assert (HQ : 0 < 2 ^ (52 - h)) by (apply Z.pow_pos_nonneg; lia).
      assert (HPQ : 2 ^ h * 2 ^ (52 - h) = 2 ^ 52).
      { rewrite <- Z.pow_add_r by lia. f_equal. lia. }
      assert (HQR : 2 ^ (52 - h) * 2 ^ (h + 874 - 1) = 2 ^ 925).
      { rewrite <- Z.pow_add_r by lia. f_equal. lia. }
      assert (Hsucc : 2 ^ Z.succ h = 2 * 2 ^ h) by (apply Z.pow_succ_r; lia).
      assert (HM : 0 <= (m - 2 ^ h) * 2 ^ (52 - h) < 2 ^ 52).
      { split; [nia|]. rewrite <- HPQ. nia. }
      rewrite double_scaled_fields by lia.
      destruct (Z.eqb_spec (h + 874) 0) as [E|_]; [lia|].
      f_equal.
      replace (2 ^ 52 + (m - 2 ^ h) * 2 ^ (52 - h)) with (m * 2 ^ (52 - h))
        by (rewrite <- HPQ; ring).
      rewrite <- Z.mul_assoc, HQR. reflexivity.
  - destruct (Z.eqb_spec e 255) as [He1|He1]; [contradiction|].
    assert (HR : 2 ^ 29 * 2 ^ (e + 896 - 1) = 2 ^ (e + 924)).
    { rewrite <- Z.pow_add_r by lia. f_equal. lia. }
    assert (HM : 0 <= m * 2 ^ 29 < 2 ^ 52).
    { change (2 ^ 29) with 536870912. change (2 ^ 52) with 4503599627370496.
      change (2 ^ 23) with 8388608 in Hm. lia. }
    rewrite double_scaled_fields by lia.
    destruct (Z.eqb_spec (e + 896) 0) as [E|_]; [lia|].
    f_equal.
    replace (2 ^ 52 + m * 2 ^ 29) with ((2 ^ 23 + m) * 2 ^ 29)
      by (change (2 ^ 52) with (2 ^ 23 * 2 ^ 29); ring).
    rewrite <- Z.mul_assoc, HR. reflexivity.
Qed.

(** Widening an infinity gives the infinity of the same sign; widening a NaN
    gives a quiet NaN of the same sign. *)
Lemma double_of_single_special (b : Z) :
  0 <= b < 2 ^ 32 -> (b / 2 ^ 23) mod 256 = 255 ->
  double_of_single b / 2 ^ 63 = b / 2 ^ 31 /\
  (double_of_single b / 2 ^ 52) mod 2048 = 2047 /\
  (b mod 2 ^ 23 = 0 -> double_of_single b mod 2 ^ 52 = 0) /\
  (b mod 2 ^ 23 <> 0 -> 2 ^ 51 <= double_of_single b mod 2 ^ 52).
Proof.
  intros Hb Hinf. destruct (single_fields b Hb) as (Hs & He & Hm).
  unfold double_of_single. cbv zeta. rewrite Hinf. simpl (255 =? 0). simpl (255 =? 255).
  cbv iota.
  set (sign := b / 2 ^ 31) in *. set (m := b mod 2 ^ 23) in *.
  set (f := if m =? 0 then 0 else if m <? 2 ^ 22 then 2 ^ 51 + m * 2 ^ 29 else m * 2 ^ 29).
  assert (Hf : 0 <= f < 2 ^ 52 /\ (m = 0 -> f = 0) /\ (m <> 0 -> 2 ^ 51 <= f)).
  { subst f. change (2 ^ 22) with 4194304. change (2 ^ 51) with 2251799813685248.
    change (2 ^ 29) with 536870912. change (2 ^ 52) with 4503599627370496.
    change (2 ^ 23) with 8388608 in Hm.
    destruct (Z.eqb_spec m 0); [lia|]. destruct (Z.ltb_spec m 4194304); lia. }
  destruct Hf as (Hf & Hf0 & Hf1).
  assert (H2047 : 0 <= 2047 < 2048) by lia.
  destruct (double_fields sign 2047 f Hs H2047 Hf) as (E1 & E2 & E3).
  rewrite E1, E2, E3. split; [reflexivity|]. split; [reflexivity|].
  split; assumption.
Qed.

Lemma unsigned_be_encode_be (k : nat) (v : Z) :
  0 <= v < 2 ^ (8 * Z.of_nat k) -> unsigned_be (encode_be k v) = v.
Proof.
  intros Hv. unfold unsigned_be. rewrite int_from_bytes_big_encode_be.
  apply Z.mod_small. change 256 with (2 ^ 8). rewrite <- Z.pow_mul_r by lia.
  exact Hv.
Qed.

Lemma unpack_be_encoded (c : ascii) (k : nat) (f : Z -> pyval) (vs : list Z) :
  code_size c = Some k ->
  Forall (fun v => unpack_code c (encode_be k v) = f v) vs ->
  unpack_be (repeat c (List.length vs)) (ints_be k vs) = Some (map f vs).
Proof.
  intros Hk. induction 1 as [|v vs Hv _ IH]; [reflexivity|].
  cbn [List.length repeat ints_be flat_map map].
  change (flat_map (encode_be k) vs) with (ints_be k vs).
  cbn [unpack_be]. rewrite Hk.
  pose proof (length_encode_be k v) as Hl.
  destruct (Nat.ltb_spec (List.length (encode_be k v ++ ints_be k vs)) k) as [Hlt|_].
  { rewrite length_app in Hlt. lia. }
  rewrite skipn_app, skipn_all2, Hl, Nat.sub_diag by lia. cbn [skipn app].
  rewrite IH.
  rewrite firstn_app, Hl, Nat.sub_diag, firstn_all2 by lia.
  cbn [firstn]. now rewrite app_nil_r, Hv.
Qed.

(** X9. What [read_ao_floats] makes of the payload: when the registers read
    hold a list of bit patterns laid out big-endian on 4 (['float']) or 8
    (['double']) bytes each, the read returns one float per pattern, in
    order: for ['double'] the binary64 datum with exactly that pattern; for
    ['float'] the binary32 datum widened to binary64, which has the same
    value when it is finite, is the infinity of the same sign when it is
    infinite, and is a quiet NaN when it is a NaN. *)
Theorem floats_read_decode_payload self d s (bs : list Z) float_precision k w w' :
  float_precision_bytes float_precision = Some k ->
  Forall (fun b => 0 <= b < 2 ^ (8 * Z.of_nat k)) bs ->
  _return_bytes self [x03] d s (registers_for float_precision (len bs)) w =
    (Ok (ints_be k bs), w') ->
  read_ao_floats self d s (len bs) float_precision w =
    (Ok (map (float_of_pattern k) bs), w') /\
  (float_precision = "double" -> map (float_of_pattern k) bs = map PyFloat bs) /\
  (float_precision = "float" ->
   map (float_of_pattern k) bs = map (fun b => PyFloat (double_of_single b)) bs /\
   Forall (fun b =>
             ((b / 2 ^ 23) mod 256 <> 255 ->
              double_scaled (double_of_single b) = single_scaled b) /\
             ((b / 2 ^ 23) mod 256 = 255 ->
              double_of_single b / 2 ^ 63 = b / 2 ^ 31 /\
              (double_of_single b / 2 ^ 52) mod 2048 = 2047 /\
              (b mod 2 ^ 23 = 0 -> double_of_single b mod 2 ^ 52 = 0) /\
              (b mod 2 ^ 23 <> 0 -> 2 ^ 51 <= double_of_single b mod 2 ^ 52))) bs).
Proof.
  intros Hk Hbs.
  assert (Hgen : forall (c : ascii),
            code_size c = Some k ->
            (forall chunk, unpack_code c chunk =
                           float_of_pattern k (unsigned_be chunk)) ->
            struct_unpack (String ">" (str_mul (String c EmptyString) (len bs)))
              (ints_be k bs) = Ok (map (float_of_pattern k) bs)).
  { intros c Hc Hu. unfold struct_unpack.
    rewrite list_ascii_of_str_mul. unfold len. rewrite Nat2Z.id.
    rewrite (unpack_be_encoded c k (float_of_pattern k)); [reflexivity|exact Hc|].
    eapply Forall_impl; [|exact Hbs].
    intros b Hb. cbv beta in Hb. now rewrite Hu, unsigned_be_encode_be. }
  revert Hk Hgen Hbs.
  unfold read_ao_floats, float_precision_bytes, registers_for, bind, ret, raise, lift.
  destruct (String.eqb_spec float_precision "float") as [->|H1]; simpl.
  { intros [= <-] Hgen Hbs ->. rewrite (Hgen "f"%char); auto.
    split; [reflexivity|]. split; [discriminate|]. intros _.
    split; [reflexivity|].
    eapply Forall_impl; [|exact Hbs].
    intros b Hb. cbv beta in Hb. change (8 * Z.of_nat 4) with 32 in Hb.
    split; [now apply double_of_single_exact|now apply double_of_single_special]. }
  destruct (String.eqb_spec float_precision "double") as [->|H2]; simpl.
  { intros [= <-] Hgen Hbs ->. rewrite (Hgen "d"%char); auto.
    split; [reflexivity|]. split; [reflexivity|discriminate]. }
  discriminate.
Qed.

(** ** Coils that are all off *)

Lemma int_from_bytes_big_zeros (payload : bytes) :
  Forall (fun b => b = x00) payload -> int_from_bytes_big payload = 0.
Proof.
  induction 1 as [|b payload -> _ IH]; [reflexivity|].
  rewrite int_from_bytes_big_cons, IH. reflexivity.
Qed.

(** X12. When every byte of the payload is zero (all coils or inputs off),
    and also when the payload is empty, the bit reads return the single
    digit [[0]], whatever the count asked for. *)
Theorem all_off_reads_as_single_zero self d s count w w' payload :
  Forall (fun b => b = x00) payload ->
  (_return_bytes self [x01] d s count w = (Ok payload, w') ->
   read_do_integers self d s count w = (Ok [0], w')) /\
  (_return_bytes self [x02] d s count w = (Ok payload, w') ->
   read_di_integers self d s count w = (Ok [0], w')).
Proof.
  intros Hz.
  assert (E : bits_of_payload payload = [0]).
  { rewrite bits_of_payload_cases, int_from_bytes_big_zeros by assumption.
    reflexivity. }
  split; intros Hrun.
  - unfold read_do_integers, bind, ret. now rewrite Hrun, E.
  - unfold read_di_integers, bind, ret. now rewrite Hrun, E.
Qed.

(** ** Traffic of the public reads *)

Lemma read_ao_integers_unknown self d s n int_format is_signed w :
  int_format <> "short" -> int_format <> "long" -> int_format <> "long long" ->
  snd (read_ao_integers self d s n int_format is_signed w) = w.
Proof.
  intros H1 H2 H3. apply String.eqb_neq in H1, H2, H3.
  unfold read_ao_integers, bind. now rewrite H1, H2, H3.
Qed.

Lemma read_ao_floats_unknown self d s n float_precision w :
  float_precision <> "float" -> float_precision <> "double" ->
  snd (read_ao_floats self d s n float_precision w) = w.
Proof.
  intros H1 H2. apply String.eqb_neq in H1, H2.
  unfold read_ao_floats, bind. now rewrite H1, H2.
Qed.

Lemma quiet_or_exchange_world {A B} self request size w
    (out : result A * World P) (out' : result B * World P) :
  snd out' = snd out ->
  snd out = w \/ one_exchange self request size w out ->
  snd out' = w \/ one_exchange self request size w out'.
Proof.
  intros E [H|H]; [left; congruence|right].
  now apply (one_exchange_world self request size w out out').
Qed.

(** X13. Whatever its arguments, a public read either leaves the world
    untouched or makes exactly one exchange on the port: one write of the
    request, the echo read when echo mode is on, and one read of
    [regs_amount * 2 + 5] bytes.  It never writes twice and never reads
    before it has written. *)
Theorem reads_make_at_most_one_exchange self d s n w :
  (snd (read_do_integers self d s n w) = w \/
   one_exchange self (request_of [x01] s n) (n * 2 + 5) w
     (read_do_integers self d s n w)) /\
  (snd (read_di_integers self d s n w) = w \/
   one_exchange self (request_of [x02] s n) (n * 2 + 5) w
     (read_di_integers self d s n w)) /\
  (forall int_format is_signed,
     snd (read_ao_integers self d s n int_format is_signed w) = w \/
     one_exchange self (request_of [x03] s (registers_for int_format n))
       (registers_for int_format n * 2 + 5) w
       (read_ao_integers self d s n int_format is_signed w)) /\
  (forall float_precision,
     snd (read_ao_floats self d s n float_precision w) = w \/
     one_exchange self (request_of [x03] s (registers_for float_precision n))
       (registers_for float_precision n * 2 + 5) w
       (read_ao_floats self d s n float_precision w)).
Proof.
  split; [|split; [|split]].
  - eapply quiet_or_exchange_world;
      [apply read_do_integers_world|apply _return_bytes_calls].
  - eapply quiet_or_exchange_world;
      [apply read_di_integers_world|apply _return_bytes_calls].
  - intros int_format is_signed.
    destruct (String.eqb_spec int_format "short") as [->|H1];
      [|destruct (String.eqb_spec int_format "long") as [->|H2];
        [|destruct (String.eqb_spec int_format "long long") as [->|H3]]].
    + eapply quiet_or_exchange_world;
        [apply (read_ao_integers_world _ _ _ _ _ _ _ n); auto
        |apply _return_bytes_calls].
    + eapply quiet_or_exchange_world;
        [apply (read_ao_integers_world _ _ _ _ _ _ _ (n * 2)); auto
        |apply _return_bytes_calls].
    + eapply quiet_or_exchange_world;
        [apply (read_ao_integers_world _ _ _ _ _ _ _ (n * 4)); auto
        |apply _return_bytes_calls].
    + left. now apply read_ao_integers_unknown.
  - intros float_precision.
    destruct (String.eqb_spec float_precision "float") as [->|H1];
      [|destruct (String.eqb_spec float_precision "double") as [->|H2]].
    + eapply quiet_or_exchange_world;
        [apply (read_ao_floats_world _ _ _ _ _ _ (n * 2)); auto
        |apply _return_bytes_calls].
    + eapply quiet_or_exchange_world;
        [apply (read_ao_floats_world _ _ _ _ _ _ (n * 4)); auto
        |apply _return_bytes_calls].
    + left. now apply read_ao_floats_unknown.
Qed.

End Further.

(** ** Echo mode on the scripted port *)

(** X14. Echo mode hides the loop-back of a half-duplex line: when the
    receive buffer holds as many bytes as the request, followed by [rest],
    a call in echo mode returns what a call without echo mode returns on a
    buffer holding [rest] alone; and when the request is sent (address 0,
    16-bit fields) both leave the same bytes unread. *)
Theorem echo_drain_is_transparent self command d s r (w : World Scripted)
    (echoed rest : bytes) :
  rx (port w) = echoed ++ rest ->
  len echoed = len (request_of command s r) ->
  fst (_return_bytes (with_echo self true) command d s r w) =
    fst (_return_bytes (with_echo self false) command d s r (with_rx w rest)) /\
  (d = 0 -> 0 <= s <= 65535 -> 0 <= r <= 65535 ->
   rx (port (snd (_return_bytes (with_echo self true) command d s r w))) =
   rx (port (snd (_return_bytes (with_echo self false) command d s r
                    (with_rx w rest))))).
Proof.
  intros Hrx Hlen.
  rewrite !_return_bytes_stages.
  change (request_frame (with_echo self true) command d s r)
    with (request_frame self command d s r).
  change (request_frame (with_echo self false) command d s r)
    with (request_frame self command d s r).
  destruct (request_frame self command d s r) as [request|e] eqn:E.
  - apply request_frame_ok in E as (_ & _ & _ & ->).
    destruct (exchange_explicit (with_echo self true) (request_of command s r) r w)
      as (w1 & -> & Hp1 & _).
    destruct (exchange_explicit (with_echo self false) (request_of command s r) r
                (with_rx w rest)) as (w2 & -> & Hp2 & _).
    change (validate (with_echo self true)) with (validate self).
    change (validate (with_echo self false)) with (validate self).
    cbn [fst snd]. rewrite Hp1, Hp2.
    unfold exchange_port. cbn [echo with_echo with_rx port port_write port_read
                                 scripted_transport rx tx fst snd].
    rewrite Hrx, <- Hlen, skipn_len_app.
    split; reflexivity.
  - split; [reflexivity|]. intros -> Hs Hr.
    rewrite request_frame_zero in E by assumption. discriminate.
Qed.

(** ** Runs of the further properties on the scripted port *)

Lemma errors_before_exchange_witness :
  _return_bytes (client false) [x03] 5 70000 1 (fresh []) =
    (Err (ValueError "Device address is not in range (0-255)"), fresh []) /\
  _return_bytes (client false) [x03] 0 70000 1 (fresh []) =
    (Err struct_error, fresh []) /\
  _return_bytes (client false) [x03] (-3) 0 (-1) (fresh []) =
    (Err struct_error, fresh []) /\
  _return_bytes (client false) [x03] (-3) 0 1 (fresh []) =
    (Err (ValueError "negative count"), fresh []) /\
  _return_bytes (client false) [x03] (-9223372036854775809) 0 1 (fresh []) =
    (Err (OverflowError "cannot fit 'int' into an index-sized integer"), fresh []).
Proof.
  split; [|split; [|split; [|split]]].
  - destruct (errors_before_exchange (client false) [x03] 5 70000 1 (fresh []))
      as (H & _). apply H. lia.
  - destruct (errors_before_exchange (client false) [x03] 0 70000 1 (fresh []))
      as (_ & H & _). apply H; lia.
  - destruct (errors_before_exchange (client false) [x03] (-3) 0 (-1) (fresh []))
      as (_ & _ & H & _). apply H; lia.
  - destruct (errors_before_exchange (client false) [x03] (-3) 0 1 (fresh []))
      as (_ & _ & _ & H & _). apply H; lia.
  - destruct (errors_before_exchange (client false) [x03] (-9223372036854775809) 0 1
                (fresh []))
      as (_ & _ & _ & _ & H). apply H; lia.
Defined.

Lemma value_count_limits_witness :
  read_ao_integers (client false) 0 0 32768 "long" true (fresh []) =
    (Err struct_error, fresh []) /\
  read_ao_floats (client false) 0 0 16384 "double" (fresh []) =
    (Err struct_error, fresh []).
Proof.
  split.
  - destruct (value_count_limits (client false) 0 0 32768 (fresh []))
      as (_ & H & _); try lia.
    destruct H as [H _]; [lia|]. apply H.
  - destruct (value_count_limits (client false) 0 0 16384 (fresh []))
      as (_ & _ & H); try lia.
    destruct H as [_ H]; [lia|]. apply H.
Defined.

Lemma exception_tells_exchange_witness :
  exists echoed,
    calls (snd (_return_bytes (client false) [x03] 0 0 1 (fresh []))) =
    calls (fresh []) ++
      exchange_calls (client false) (request_of [x03] 0 1) 7 echoed [].
Proof.
  apply (exception_tells_exchange (client false) [x03] 0 0 1 (fresh [])
           (TimeoutError "Device is not responding")
           (snd (_return_bytes (client false) [x03] 0 0 1 (fresh [])))).
  vm_compute. reflexivity.
Defined.

Lemma validation_ignores_address_and_count_witness :
  validate (client false) [x03] ([x11; x03; x99; x12; x34] ++ [x05; x1f]) =
    Ok [x12; x34].
Proof.
  apply (@validation_ignores_address_and_count Scripted _ _
           (client false) x03 x11 x99 [x12; x34] x05 x1f).
  vm_compute. reflexivity.
Defined.

Lemma payload_comes_from_response_witness :
  exists echoed response,
    calls (snd (_return_bytes (client false) [x03] 0 0 1
                  (fresh (response_frame x03 [x12; x34])))) =
      calls (fresh (response_frame x03 [x12; x34])) ++
        exchange_calls (client false) (request_of [x03] 0 1) (1 * 2 + 5)
          echoed response /\
    [x12; x34] = slice (Some 3) (Some (-2)) response /\
    len [x12; x34] = Z.max 0 (len response - 5).
Proof.
  apply (payload_comes_from_response (client false) [x03] 0 0 1
           (fresh (response_frame x03 [x12; x34]))).
  vm_compute. reflexivity.
Defined.

Lemma integers_read_are_in_signed_range_witness :
  exists k payload,
    int_format_bytes "short" = Some k /\
    _return_bytes (client false) [x03] 0 0 (registers_for "short" 1)
      (fresh (response_frame x03 [xff; xff])) =
      (Ok payload,
       snd (read_ao_integers (client false) 0 0 1 "short" false
              (fresh (response_frame x03 [xff; xff])))) /\
    len payload = 1 * Z.of_nat k /\
    len [PyInt (-1)] = 1 /\
    Forall (fun v => exists z, v = PyInt z /\
                     - 2 ^ (8 * Z.of_nat k - 1) <= z < 2 ^ (8 * Z.of_nat k - 1))
      [PyInt (-1)].
Proof.
  apply (integers_read_are_in_signed_range (client false) 0 0 1 "short" false
           (fresh (response_frame x03 [xff; xff]))).
  vm_compute. reflexivity.
Defined.

Lemma wrong_payload_length_raises_witness :
  fst (read_ao_integers (client false) 0 0 1 "long" true
         (fresh (response_frame x03 [x00; x01]))) = Err struct_error.
Proof.
  destruct (wrong_payload_length_raises (client false) 0 0 1 "long"
              (fresh (response_frame x03 [x00; x01])) [x00; x01]
              (snd (_return_bytes (client false) [x03] 0 0 2
                      (fresh (response_frame x03 [x00; x01])))))
    as [Hint _].
  - vm_compute. reflexivity.
  - rewrite (Hint 4%nat true); [reflexivity|reflexivity|vm_compute; discriminate].
Defined.

Lemma signed_decoding_round_trip_witness :
  fst (read_ao_integers (client false) 0 0 3 "short" true
         (fresh (response_frame x03 (ints_be 2 [0; -32768; 32767])))) =
    Ok [PyInt 0; PyInt (-32768); PyInt 32767] /\
  fst (read_ao_integers (client false) 0 0 2 "long long" true
         (fresh (response_frame x03
                   (ints_be 8 [-9223372036854775808; 9223372036854775807])))) =
    Ok [PyInt (-9223372036854775808); PyInt 9223372036854775807].
Proof.
  split.
  - rewrite (signed_decoding_round_trip (client false) 0 0 [0; -32768; 32767]
               "short" 2 true
               (fresh (response_frame x03 (ints_be 2 [0; -32768; 32767])))
               (snd (_return_bytes (client false) [x03] 0 0 3
                       (fresh (response_frame x03 (ints_be 2 [0; -32768; 32767])))))).
    + reflexivity.
    + reflexivity.
    + repeat constructor; vm_compute; discriminate.
    + vm_compute. reflexivity.
  - rewrite (signed_decoding_round_trip (client false) 0 0
               [-9223372036854775808; 9223372036854775807]
               "long long" 8 true
               (fresh (response_frame x03
                         (ints_be 8 [-9223372036854775808; 9223372036854775807])))
               (snd (_return_bytes (client false) [x03] 0 0 8
                       (fresh (response_frame x03
                                 (ints_be 8 [-9223372036854775808;
                                             9223372036854775807])))))).
    + reflexivity.
    + reflexivity.
    + repeat constructor; vm_compute; discriminate.
    + vm_compute. reflexivity.
Defined.

Lemma floats_read_decode_payload_witness :
  fst (read_ao_floats (client false) 0 0 3 "float"
         (fresh (response_frame x03 (ints_be 4 [1065353216; 2141192192; 1])))) =
    Ok [PyFloat 4607182418800017408; PyFloat 9222246136947933184;
        PyFloat 3936146074321813504] /\
  fst (read_ao_floats (client false) 0 0 1 "double"
         (fresh (response_frame x03 (ints_be 8 [4614256656552045848])))) =
    Ok [PyFloat 4614256656552045848].
Proof.
  split.
  - destruct (floats_read_decode_payload (client false) 0 0
                [1065353216; 2141192192; 1] "float" 4
                (fresh (response_frame x03 (ints_be 4 [1065353216; 2141192192; 1])))
                (snd (_return_bytes (client false) [x03] 0 0 6
                        (fresh (response_frame x03
                                  (ints_be 4 [1065353216; 2141192192; 1]))))))
      as (H & _).
    + reflexivity.
    + repeat constructor; vm_compute; discriminate.
    + vm_compute. reflexivity.
    + change (len [1065353216; 2141192192; 1]) with 3 in H. rewrite H.
      vm_compute. reflexivity.
  - destruct (floats_read_decode_payload (client false) 0 0
                [4614256656552045848] "double" 8
                (fresh (response_frame x03 (ints_be 8 [4614256656552045848])))
                (snd (_return_bytes (client false) [x03] 0 0 4
                        (fresh (response_frame x03
                                  (ints_be 8 [4614256656552045848]))))))
      as (H & _).
    + reflexivity.
    + repeat constructor; vm_compute; discriminate.
    + vm_compute. reflexivity.
    + change (len [4614256656552045848]) with 1 in H. rewrite H.
      vm_compute. reflexivity.
Defined.

Lemma all_off_reads_as_single_zero_witness :
  fst (read_do_integers (client false) 0 0 8 (fresh (response_frame x01 [x00]))) =
    Ok [0].
Proof.
  destruct (all_off_reads_as_single_zero (client false) 0 0 8
              (fresh (response_frame x01 [x00]))
              (snd (_return_bytes (client false) [x01] 0 0 8
                      (fresh (response_frame x01 [x00]))))
              [x00]) as [Hdo _].
  - repeat constructor.
  - rewrite Hdo; [reflexivity|]. vm_compute. reflexivity.
Defined.

Lemma echo_drain_is_transparent_witness :
  fst (_return_bytes (client true) [x01] 0 0 1
         (fresh (request_of [x01] 0 1 ++ response_frame x01 [x01]))) =
    Ok [x01].
Proof.
  destruct (echo_drain_is_transparent (client false) [x01] 0 0 1
              (fresh (request_of [x01] 0 1 ++ response_frame x01 [x01]))
              (request_of [x01] 0 1) (response_frame x01 [x01]))
    as [Hres _].
  - reflexivity.
  - reflexivity.
  - change (with_echo (client false) true) with (client true) in Hres.
    rewrite Hres. vm_compute. reflexivity.
Defined.

(** * Bit positions and request fields *)

Section Positions.

Context {P : Type} {T : Transport P} {Pf : Platform}.

Implicit Types (self : Modbus) (w : World P).

Lemma pos_bits_testbit (p : positive) (i : nat) :
  nth i (rev (pos_bits p)) 0 = Z.b2z (Z.testbit (Zpos p) (Z.of_nat i)).
Proof.
  revert i. induction p as [q IH|q IH|]; intros i; cbn [pos_bits].
  - rewrite rev_unit, Pos2Z.inj_xI. destruct i as [|j].
    + cbn [nth]. change (Z.of_nat 0) with 0. now rewrite Z.testbit_odd_0.
    + cbn [nth]. rewrite Nat2Z.inj_succ, Z.testbit_odd_succ by lia. apply IH.
  - rewrite rev_unit, Pos2Z.inj_xO. destruct i as [|j].
    + cbn [nth]. change (Z.of_nat 0) with 0. now rewrite Z.testbit_even_0.
    + cbn [nth]. rewrite Nat2Z.inj_succ, Z.testbit_even_succ by lia. apply IH.
  - destruct i as [|j]; [reflexivity|].
    cbn [rev app nth]. rewrite Nat2Z.inj_succ.
    change 1 with (2 * 0 + 1). rewrite Z.testbit_odd_succ, Z.testbit_0_l by lia.
    now destruct j.
Qed.

Lemma bits_of_payload_testbit (payload : bytes) (i : nat) :
  nth i (rev (bits_of_payload payload)) 0 =
  Z.b2z (Z.testbit (int_from_bytes_big payload) (Z.of_nat i)).
Proof.
  rewrite bits_of_payload_cases.
  pose proof (int_from_bytes_big_range payload) as Hr.
  destruct (int_from_bytes_big payload) as [|p|p]; try lia.
  - rewrite Z.testbit_0_l. now destruct i as [|[|j]].
  - apply pos_bits_testbit.
Qed.

(** X15. Where each status bit ends up: counted from the end of the list
    returned by a bit read, element [i] is bit [i] of the payload read as a
    big-endian integer; positions beyond the start of the list stand for
    zero bits. *)
Theorem bit_positions_count_from_the_end self d s count w w' payload :
  (_return_bytes self [x01] d s count w = (Ok payload, w') ->
   exists bits,
     read_do_integers self d s count w = (Ok bits, w') /\
     forall i : nat,
       nth i (rev bits) 0 =
       Z.b2z (Z.testbit (int_from_bytes_big payload) (Z.of_nat i))) /\
  (_return_bytes self [x02] d s count w = (Ok payload, w') ->
   exists bits,
     read_di_integers self d s count w = (Ok bits, w') /\
     forall i : nat,
       nth i (rev bits) 0 =
       Z.b2z (Z.testbit (int_from_bytes_big payload) (Z.of_nat i))).
Proof.
  split; intros Hrun; exists (bits_of_payload payload); split;
    try apply bits_of_payload_testbit.
  - unfold read_do_integers, bind, ret. now rewrite Hrun.
  - unfold read_di_integers, bind, ret. now rewrite Hrun.
Qed.

Lemma int_from_bytes_big_pack_H (v : Z) :
  0 <= v <= 65535 -> int_from_bytes_big [byte_of_Z (v / 256); byte_of_Z v] = v.
Proof.
  intros Hv. unfold int_from_bytes_big. cbn [fold_left].
  rewrite !Z_of_byte_of_Z. Z.to_euclidean_division_equations. lia.
Qed.

(** X16. What is sent for address 0: the request written to the port is the
    command, the start register and the register count as two bytes each,
    from which the two numbers are read back big-endian, and the CRC-16 of
    those bytes; the response read then asks for [regs_amount * 2 + 5]
    bytes. *)
Theorem request_carries_start_and_count self command s r w :
  0 <= s <= 65535 -> 0 <= r <= 65535 ->
  exists start_field count_field,
    len start_field = 2 /\ len count_field = 2 /\
    int_from_bytes_big start_field = s /\
    int_from_bytes_big count_field = r /\
    one_exchange self
      ((command ++ start_field ++ count_field)
       ++ crc16 (command ++ start_field ++ count_field))
      (r * 2 + 5) w (_return_bytes self command 0 s r w).
Proof.
  intros Hs Hr.
  exists [byte_of_Z (s / 256); byte_of_Z s], [byte_of_Z (r / 256); byte_of_Z r].
  repeat split; try (now apply int_from_bytes_big_pack_H).
  now apply (_return_bytes_one_exchange self command s r w).
Qed.

End Positions.

Lemma bit_positions_count_from_the_end_witness :
  fst (read_do_integers (client false) 0 0 8 (fresh (response_frame x01 [x05]))) =
    Ok [1; 0; 1] /\
  nth 2 (rev [1; 0; 1]) 0 = Z.b2z (Z.testbit 5 2) /\
  nth 7 (rev [1; 0; 1]) 0 = Z.b2z (Z.testbit 5 7).
Proof.
  destruct (bit_positions_count_from_the_end (client false) 0 0 8
              (fresh (response_frame x01 [x05]))
              (snd (_return_bytes (client false) [x01] 0 0 8
                      (fresh (response_frame x01 [x05]))))
              [x05]) as [Hdo _].
  destruct Hdo as (bits & Hbits & Hpos); [vm_compute; reflexivity|].
  assert (E : bits = [1; 0; 1]).
  { apply (f_equal fst) in Hbits. vm_compute in Hbits. congruence. }
  subst bits. split; [now rewrite Hbits|].
  split; [apply (Hpos 2%nat)|apply (Hpos 7%nat)].
Defined.

Lemma request_carries_start_and_count_witness :
  exists start_field count_field,
    len start_field = 2 /\ len count_field = 2 /\
    int_from_bytes_big start_field = 258 /\
    int_from_bytes_big count_field = 3 /\
    one_exchange (client true)
      (([x03] ++ start_field ++ count_field)
       ++ crc16 ([x03] ++ start_field ++ count_field))
      (3 * 2 + 5) (fresh []) (_return_bytes (client true) [x03] 0 258 3 (fresh [])).
Proof.
  apply (request_carries_start_and_count (client true) [x03] 258 3 (fresh [])); lia.
Defined.
